(** * Legacy PyNN file formats (neo/io/pynnio.py): a shallow embedding

    The module reads and writes segments of analog signals or spike trains
    in two encodings of one logical layout: a flat two-column table
    (value, channel index) and a key/value metadata block.

    Conventions of the embedding.
    - A Python exception is a value of [exn]; a call that may raise returns
      a [result].  [Unmodelled] is not a Python exception: it marks inputs
      whose behaviour lies outside the embedded fragment (the embedding
      makes no prediction there).
    - A float64 magnitude is idealised as an exact decimal [m * 10^e]
      ([pyfloat]); there is no rounding, no infinity and no NaN.
    - Metadata values are the scalar kinds the formats carry: None, bool,
      int, float, str, and a unit object of the [quantities] package.
    - Python 3 semantics are embedded where Python 2 differs. *)

From Stdlib Require Import ZArith String Ascii.
From stdpp Require Import gmap strings list sorting.

Local Open Scope Z_scope.

(** ** Exceptions and results *)

Inductive exn : Type :=
  | AssertionError (msg : string)
  | KeyError (key : string)
  | IOError (msg : string)
  | TypeError (msg : string)
  | IndexError (msg : string)
  | ValueError (msg : string)
  | LookupError (msg : string)
  | UnboundLocalError (name : string)
  | NotImplementedError
  | FileNotFoundError (filename : string)
  | Unmodelled.

Inductive result (A : Type) : Type :=
  | Ok (a : A)
  | Raise (e : exn).
Arguments Ok {A} a.
Arguments Raise {A} e.

Global Instance result_ret : MRet result := fun _ a => Ok a.
Global Instance result_bind : MBind result := fun _ _ k r =>
  match r with
  | Ok a => k a
  | Raise e => Raise e
  end.

(** The error kinds of the specification, as the exceptions the module
    raises for them. *)
Definition UnitResolutionError : exn := IOError "Cannot determine units".
Definition FormatMismatchError_analog : exn :=
  TypeError "File contains spike data, not analog signals".
Definition FormatMismatchError_spikes : exn :=
  TypeError "File contains analog signals, not spike data".
Definition NotFoundError_signal : exn := IndexError "File does not contain a signal".
Definition EmptySegmentError : exn :=
  AssertionError "Segment contains neither analog signals nor spike trains.".
Definition UnsupportedModeError : exn := AssertionError "Do not support lazy".

(** ** Floats *)

(** A float64 magnitude, idealised as the decimal [fmant * 10^fexp]. *)
Record pyfloat : Type := Float { fmant : Z; fexp : Z }.

Global Instance pyfloat_eq_dec : EqDecision pyfloat.
Proof. solve_decision. Defined.

Definition float_of_Z (z : Z) : pyfloat := Float z 0.

(** Numeric comparison: both mantissas are brought to the smaller exponent. *)
Definition float_compare (a b : pyfloat) : comparison :=
  let e := Z.min (fexp a) (fexp b) in
  Z.compare (fmant a * 10 ^ (fexp a - e)) (fmant b * 10 ^ (fexp b - e)).

Definition float_eqb (a b : pyfloat) : bool :=
  match float_compare a b with Eq => true | _ => false end.

Definition float_leb (a b : pyfloat) : bool :=
  match float_compare a b with Gt => false | _ => true end.

Definition float_add (a b : pyfloat) : pyfloat :=
  let e := Z.min (fexp a) (fexp b) in
  Float (fmant a * 10 ^ (fexp a - e) + fmant b * 10 ^ (fexp b - e)) e.

(** ** Units of the [quantities] package *)

(** A unit: its name, its symbol (the text [units.unicode] /
    [units.u_symbol] gives), its physical dimension and its power of ten
    relative to the SI unit of that dimension. *)
Record pq_unit : Type := Unit {
  u_name : string;
  u_symbol : string;
  u_dimension : string;
  u_exp10 : Z
}.

Global Instance pq_unit_eq_dec : EqDecision pq_unit.
Proof. solve_decision. Defined.

Definition pq_ms : pq_unit := Unit "millisecond" "ms" "time" (-3).
Definition pq_s : pq_unit := Unit "second" "s" "time" 0.
Definition pq_mV : pq_unit := Unit "millivolt" "mV" "potential" (-3).
(** [pq.UnitQuantity('microsiemens', 1e-6 * pq.S, 'uS', 'µS')]; the
    [u_symbol] is the UTF-8 text of the micro sign followed by [S]. *)
Definition micro_sign : string :=
  String (ascii_of_nat 194) (String (ascii_of_nat 181) EmptyString).
Definition pq_uS : pq_unit := Unit "microsiemens" (micro_sign +:+ "S") "conductance" (-6).

(** ** Metadata values *)

Inductive pyvalue : Type :=
  | VNone
  | VBool (b : bool)
  | VInt (z : Z)
  | VFloat (f : pyfloat)
  | VStr (s : string)
  | VUnit (u : pq_unit).

Global Instance value_eq_dec : EqDecision pyvalue.
Proof. solve_decision. Defined.

(** [UNITS_MAP] *)
Definition UNITS_MAP : gmap string pq_unit :=
  <["spikes" := pq_ms]> (<["v" := pq_mV]> (<["gsyn" := pq_uS]> ∅)).

(** [key in UNITS_MAP] and [UNITS_MAP[key]] for a metadata value used as key:
    the keys of the table are strings, so only a [str] can be found. *)
Definition UNITS_MAP_lookup (key : pyvalue) : option pq_unit :=
  match key with
  | VStr s => UNITS_MAP !! s
  | _ => None
  end.

(** [metadata[key]] *)
Definition getitem (metadata : gmap string pyvalue) (key : string) : result pyvalue :=
  match metadata !! key with
  | Some v => Ok v
  | None => Raise (KeyError key)
  end.

(** ** BasePyNNIO._determine_units *)

Definition _determine_units (metadata : gmap string pyvalue) : result pyvalue :=
  match metadata !! "units" with
  | Some u => Ok u
  | None =>
      match metadata !! "variable" with
      | Some variable =>
          match UNITS_MAP_lookup variable with
          | Some u => Ok (VUnit u)
          | None => Raise (IOError "Cannot determine units")
          end
      | None => Raise (IOError "Cannot determine units")
      end
  end.

(** ** Arrays *)

(** What the drivers hand to the readers as [data]: the n x 2 table, or a
    one-dimensional array ([numpy.loadtxt] squeezes a table of at most one
    row). *)
Inductive ndarray : Type :=
  | Arr1 (elems : list pyfloat)
  | Arr2 (rows : list (pyfloat * pyfloat)).

(** A two-dimensional array with its shape. *)
Record array2d : Type := Array2d {
  shape0 : nat;
  shape1 : nat;
  cells : list (list pyfloat)
}.


Definition column (j : nat) (rows : list (list pyfloat)) : list pyfloat :=
  map (fun r => nth j r (Float 0 0)) rows.

(** [a.T] *)
Definition transpose (a : array2d) : array2d :=
  {| shape0 := shape1 a;
     shape1 := shape0 a;
     cells := map (fun j => column j (cells a)) (seq 0 (shape1 a)) |}.

(** [numpy.vstack] of one-dimensional arrays. *)
Definition vstack (arrays : list (list pyfloat)) : result array2d :=
  match arrays with
  | [] => Raise (ValueError "need at least one array to concatenate")
  | a0 :: rest =>
      if forallb (fun a => Nat.eqb (length a) (length a0)) rest
      then Ok {| shape0 := length arrays; shape1 := length a0; cells := arrays |}
      else Raise (ValueError "all the input array dimensions must match exactly")
  end.

(** ** BasePyNNIO._extract_array *)

Definition _extract_array (data : ndarray) (channel_index : Z) : result (list pyfloat) :=
  match data with
  | Arr1 _ => Raise (IndexError "too many indices for array")
  | Arr2 rows =>
      Ok (map fst (List.filter (fun r => float_eqb (snd r) (float_of_Z channel_index)) rows))
  end.

(** ** The container types of [neo.core] *)

Record quantity : Type := Quantity { magnitude : pyfloat; q_units : pq_unit }.

Record AnalogSignal : Type := {
  as_signal : array2d;                    (* time x channel *)
  as_units : pyvalue;
  as_sampling_period : quantity;
  as_annotations : gmap string pyvalue
}.

Record SpikeTrain : Type := {
  st_times : list pyfloat;
  st_units : pyvalue;
  st_t_stop : pyfloat;
  st_sampling_period : quantity;
  st_annotations : gmap string pyvalue
}.

Record Segment : Type := {
  analogsignals : list AnalogSignal;
  spiketrains : list SpikeTrain;
  annotations : gmap string pyvalue
}.

(** ** Python operations on metadata values *)

(** [v == s] for a string literal [s]. *)
Definition eq_str (v : pyvalue) (s : string) : bool :=
  match v with
  | VStr s' => bool_decide (s' = s)
  | _ => false
  end.

(** An argument of [range]: an int, or a bool (a subclass of int). *)
Definition as_index (v : pyvalue) : result Z :=
  match v with
  | VInt z => Ok z
  | VBool b => Ok (if b then 1 else 0)
  | VUnit _ => Raise Unmodelled
  | _ => Raise (TypeError "object cannot be interpreted as an integer")
  end.

(** [v + 1] *)
Definition add_one (v : pyvalue) : result pyvalue :=
  match v with
  | VInt z => Ok (VInt (z + 1))
  | VBool b => Ok (VInt ((if b then 1 else 0) + 1))
  | VFloat f => Ok (VFloat (float_add f (float_of_Z 1)))
  | VUnit _ => Raise Unmodelled
  | _ => Raise (TypeError "unsupported operand type(s) for +")
  end.

(** [range(metadata['first_index'], metadata['last_index'] + 1)] *)
Definition channel_range (metadata : gmap string pyvalue) : result (list Z) :=
  first_index ← getitem metadata "first_index";
  last_index ← getitem metadata "last_index";
  stop ← add_one last_index;
  a ← as_index first_index;
  b ← as_index stop;
  Ok (seqZ a (b - a)).

(** [v * pq.ms] *)
Definition times_ms (v : pyvalue) : result quantity :=
  match v with
  | VInt z => Ok (Quantity (float_of_Z z) pq_ms)
  | VBool b => Ok (Quantity (float_of_Z (if b then 1 else 0)) pq_ms)
  | VFloat f => Ok (Quantity f pq_ms)
  | VUnit _ => Raise Unmodelled
  | _ => Raise (TypeError "unsupported operand type(s) for *")
  end.

(** [obj.annotate] with keyword arguments: update of the annotation dictionary, later
    keywords being inserted later. *)
Definition annotate (kw : list (string * pyvalue)) (anns : gmap string pyvalue)
  : gmap string pyvalue :=
  fold_left (fun m kv => <[kv.1 := kv.2]> m) kw anns.

(** ** BasePyNNIO._extract_signals *)

(** The local variable [signal] is bound only under [len(arr) > 0];
    [None] below stands for the unbound local. *)
Definition _extract_signals (data : ndarray) (metadata : gmap string pyvalue)
  : result (option AnalogSignal) :=
  indices ← channel_range metadata;
  arrays ← mapM (_extract_array data) indices;
  arr ← vstack arrays;
  signal ←
    (if (0 <? shape0 arr)%nat then
       units ← _determine_units metadata;
       dt ← getitem metadata "dt";
       sampling_period ← times_ms dt;
       Ok (Some {| as_signal := transpose arr;
                   as_units := units;
                   as_sampling_period := sampling_period;
                   as_annotations := ∅ |})
     else Ok None);
  match signal with
  | None => Raise (UnboundLocalError "signal")
  | Some signal =>
      label ← getitem metadata "label";
      variable ← getitem metadata "variable";
      Ok (Some {| as_signal := as_signal signal;
                  as_units := as_units signal;
                  as_sampling_period := as_sampling_period signal;
                  as_annotations :=
                    annotate [("label", label); ("variable", variable)]
                             (as_annotations signal) |})
  end.

(** ** BasePyNNIO._extract_spikes *)

Definition float_max (a b : pyfloat) : pyfloat := if float_leb a b then b else a.

(** [spike_times.max()] of a non-empty array. *)
Definition array_max (x0 : pyfloat) (xs : list pyfloat) : pyfloat :=
  fold_left float_max xs x0.

(** The default sampling period of a [SpikeTrain]: one over 1 Hz. *)
Definition default_sampling_period : quantity := Quantity (float_of_Z 1) pq_s.

Definition _extract_spikes (data : ndarray) (metadata : gmap string pyvalue)
    (channel_index : Z) : result (option SpikeTrain) :=
  spike_times ← _extract_array data channel_index;
  match spike_times with
  | t0 :: ts =>
      label ← getitem metadata "label";
      dt ← getitem metadata "dt";
      Ok (Some {| st_times := spike_times;
                  st_units := VUnit pq_ms;
                  st_t_stop := array_max t0 ts;
                  st_sampling_period := default_sampling_period;
                  st_annotations :=
                    annotate [("label", label);
                              ("channel_index", VInt channel_index);
                              ("dt", dt)] ∅ |})
  | [] => Ok None
  end.

(** ** Text of values: [str] *)

Definition digit_char (d : N) : ascii := ascii_of_N (48 + d).

Definition digit_of_char (c : ascii) : option N :=
  let n := N_of_ascii c in
  if ((48 <=? n) && (n <=? 57))%N then Some (n - 48)%N else None.

Fixpoint digits_aux (fuel : nat) (n : N) (acc : string) : string :=
  match fuel with
  | O => acc
  | S fuel' =>
      let acc' := String (digit_char (n mod 10)) acc in
      if (n / 10 =? 0)%N then acc' else digits_aux fuel' (n / 10) acc'
  end.

(** The decimal digits of a natural number, without leading zeros. *)
Definition digits_of_N (n : N) : string :=
  digits_aux (S (N.to_nat (N.log2 n))) n "".

(** [str] of an int. *)
Definition int_str (z : Z) : string :=
  if z <? 0 then "-" +:+ digits_of_N (Z.abs_N z) else digits_of_N (Z.abs_N z).

Fixpoint zeros (k : nat) : string :=
  match k with
  | O => ""
  | S k' => String "0"%char (zeros k')
  end.

Fixpoint take_str (n : nat) (s : string) : string :=
  match n, s with
  | S n', String c s' => String c (take_str n' s')
  | _, _ => ""
  end.

Fixpoint drop_str (n : nat) (s : string) : string :=
  match n, s with
  | S n', String _ s' => drop_str n' s'
  | _, _ => s
  end.

Fixpoint normalize_aux (fuel : nat) (m e : Z) : pyfloat :=
  match fuel with
  | O => Float m e
  | S fuel' =>
      if m mod 10 =? 0 then normalize_aux fuel' (m / 10) (e + 1) else Float m e
  end.

(** The representation of a float whose mantissa has no trailing zero;
    zero is [0 * 10^0]. *)
Definition normalize (f : pyfloat) : pyfloat :=
  if fmant f =? 0 then Float 0 0
  else normalize_aux (S (Z.to_nat (Z.log2 (Z.abs (fmant f))))) (fmant f) (fexp f).

(** The exponent of the scientific notation: a sign and at least two digits. *)
Definition exponent_str (x : Z) : string :=
  (if x <? 0 then "-" else "+") +:+
  (if Z.abs x <? 10 then "0" else "") +:+ digits_of_N (Z.abs_N x).

(** The digits [ds] of a float with the decimal point after [decpt] of
    them: fixed notation for [-4 < decpt <= 16], scientific notation
    otherwise. *)
Definition repr_digits (ds : string) (decpt : Z) : string :=
  let n := Z.of_nat (String.length ds) in
  if (-4 <? decpt) && (decpt <=? 16) then
    if decpt <=? 0 then "0." +:+ zeros (Z.to_nat (- decpt)) +:+ ds
    else if decpt <? n then
      take_str (Z.to_nat decpt) ds +:+ "." +:+ drop_str (Z.to_nat decpt) ds
    else ds +:+ zeros (Z.to_nat (decpt - n)) +:+ ".0"
  else
    take_str 1 ds +:+
    (if 1 <? n then "." +:+ drop_str 1 ds else "") +:+
    "e" +:+ exponent_str (decpt - 1).

(** [repr] of a float, from its shortest digits. *)
Definition float_repr (f : pyfloat) : string :=
  let f := normalize f in
  if fmant f =? 0 then "0.0"
  else
    let ds := digits_of_N (Z.abs_N (fmant f)) in
    (if fmant f <? 0 then "-" else "") +:+
    repr_digits ds (Z.of_nat (String.length ds) + fexp f).

(** [str(v)] *)
Definition py_str (v : pyvalue) : string :=
  match v with
  | VNone => "None"
  | VBool true => "True"
  | VBool false => "False"
  | VInt z => int_str z
  | VFloat f => float_repr f
  | VStr s => s
  | VUnit u => "1 " +:+ u_symbol u +:+ " (" +:+ u_name u +:+ ")"
  end.



(** ** Decoding the text of values: [eval] *)

(** The outcome of [eval(text)] inside [try: ... except Exception].
    [Raises] is any exception the handler catches (SyntaxError, NameError,
    TypeError); [Outside] marks an expression outside the embedded
    fragment of Python. *)
Inductive outcome : Type :=
  | Returns (v : pyvalue)
  | Raises
  | Outside.

(** The characters [str.strip] removes (ASCII). *)
Definition is_py_space (c : ascii) : bool :=
  let n := N_of_ascii c in
  (((9 <=? n) && (n <=? 13)) || ((28 <=? n) && (n <=? 32)))%N.

(** The characters [eval] removes around an expression: space, tab, newline. *)
Definition is_blank (c : ascii) : bool :=
  let n := N_of_ascii c in
  ((n =? 32) || (n =? 9) || (n =? 10))%N.

Fixpoint lstrip (p : ascii -> bool) (s : string) : string :=
  match s with
  | String c s' => if p c then lstrip p s' else s
  | EmptyString => EmptyString
  end.

Fixpoint rstrip (p : ascii -> bool) (s : string) : string :=
  match s with
  | String c s' =>
      match rstrip p s' with
      | EmptyString => if p c then EmptyString else String c EmptyString
      | r => String c r
      end
  | EmptyString => EmptyString
  end.

Definition strip (p : ascii -> bool) (s : string) : string := rstrip p (lstrip p s).

(** The text before and after the first occurrence of [c]. *)
Fixpoint cut (c : ascii) (s : string) : option (string * string) :=
  match s with
  | EmptyString => None
  | String a s' =>
      if bool_decide (a = c) then Some (EmptyString, s')
      else match cut c s' with
           | Some (l, r) => Some (String a l, r)
           | None => None
           end
  end.

Fixpoint digits_value_acc (acc : N) (s : string) : option N :=
  match s with
  | EmptyString => Some acc
  | String c s' =>
      match digit_of_char c with
      | Some d => digits_value_acc (acc * 10 + d) s'
      | None => None
      end
  end.

(** The number a string of decimal digits denotes ([0] for the empty
    string); [None] when a character is not a digit. *)
Definition digits_value (s : string) : option N := digits_value_acc 0 s.

Definition nonempty (s : string) : bool :=
  match s with EmptyString => false | _ => true end.

(** Digits with an optional sign: the exponent of a float literal. *)
Definition signed_digits (s : string) : option Z :=
  match s with
  | String c r =>
      if bool_decide (c = "-"%char) then
        if nonempty r then (fun n => - Z.of_N n) <$> digits_value r else None
      else if bool_decide (c = "+"%char) then
        if nonempty r then Z.of_N <$> digits_value r else None
      else Z.of_N <$> digits_value s
  | EmptyString => None
  end.

(** The text of a float literal before its exponent, and the exponent. *)
Definition split_exponent (t : string) : string * option string :=
  match cut "e" t with
  | Some (m, e) => (m, Some e)
  | None => match cut "E" t with
            | Some (m, e) => (m, Some e)
            | None => (t, None)
            end
  end.

(** The digits of a float literal, around a decimal point or (when an
    exponent follows) without one. *)
Definition parse_mantissa (m_part : string) (has_exponent : bool) (expo : Z)
  : option pyfloat :=
  match cut "." m_part with
  | Some (ip, fp) =>
      if nonempty ip || nonempty fp then
        m ← digits_value (ip +:+ fp);
        Some (normalize (Float (Z.of_N m) (expo - Z.of_nat (String.length fp))))
      else None
  | None =>
      if has_exponent && nonempty m_part then
        m ← digits_value m_part;
        Some (normalize (Float (Z.of_N m) expo))
      else None
  end.

(** A float literal: digits with a decimal point, an exponent, or both. *)
Definition parse_float (t : string) : option pyfloat :=
  let '(m_part, e_part) := split_exponent t in
  expo ← match e_part with
         | Some e => signed_digits e
         | None => Some 0
         end;
  parse_mantissa m_part (bool_decide (is_Some e_part)) expo.

(** A decimal integer literal of Python 3: digits, without a leading zero
    unless every digit is zero. *)
Definition parse_int (t : string) : option Z :=
  match t with
  | EmptyString => None
  | String c r =>
      n ← digits_value t;
      if bool_decide (c = "0"%char) && negb (n =? 0)%N then None else Some (Z.of_N n)
  end.

Definition no_char (p : ascii -> bool) (s : string) : bool :=
  forallb (fun c => negb (p c)) (list_ascii_of_string s).

Definition single_quote : ascii := ascii_of_nat 39.
Definition double_quote : ascii := ascii_of_nat 34.
Definition backslash : ascii := ascii_of_nat 92.

(** A string literal in single or double quotes without escapes: the
    body holds no quote of its kind, no backslash and no line break. *)
Definition parse_quoted (t : string) : option string :=
  match t with
  | String q r =>
      if bool_decide (q = single_quote) || bool_decide (q = double_quote) then
        match cut q r with
        | Some (body, EmptyString) =>
            if no_char (fun c => bool_decide (c = backslash) ||
                                 bool_decide (c = "010"%char) ||
                                 bool_decide (c = "013"%char)) body
            then Some body else None
        | _ => None
        end
      else None
  | EmptyString => None
  end.

Definition is_ident_start (c : ascii) : bool :=
  let n := N_of_ascii c in
  (((65 <=? n) && (n <=? 90)) || ((97 <=? n) && (n <=? 122)) || (n =? 95))%N.

Definition is_ident_char (c : ascii) : bool :=
  let n := N_of_ascii c in
  is_ident_start c || ((48 <=? n) && (n <=? 57))%N.

(** An ASCII identifier. *)
Definition is_identifier (t : string) : bool :=
  match t with
  | String c r => is_ident_start c && forallb is_ident_char (list_ascii_of_string r)
  | EmptyString => false
  end.

(** Names bound at module level in pynnio.py. *)
Definition module_globals : list string :=
  ["chain"; "numpy"; "pq"; "warnings"; "BaseIO"; "Segment"; "AnalogSignal";
   "SpikeTrain"; "PY2"; "UNITS_MAP"; "BasePyNNIO"; "PyNNNumpyIO"; "PyNNTextIO"].

(** Keywords of Python 2 and 3. *)
Definition keywords : list string :=
  ["and"; "as"; "assert"; "async"; "await"; "break"; "class"; "continue";
   "def"; "del"; "elif"; "else"; "except"; "exec"; "finally"; "for"; "from";
   "global"; "if"; "import"; "in"; "is"; "lambda"; "nonlocal"; "not"; "or";
   "pass"; "print"; "raise"; "return"; "try"; "while"; "with"; "yield"].

(** Names of the builtins of Python 2 and 3. *)
Definition builtin_names : list string :=
  ["ArithmeticError"; "AssertionError"; "AttributeError"; "BaseException";
   "BaseExceptionGroup"; "BlockingIOError"; "BrokenPipeError"; "BufferError";
   "BytesWarning"; "ChildProcessError"; "ConnectionAbortedError";
   "ConnectionError"; "ConnectionRefusedError"; "ConnectionResetError";
   "DeprecationWarning"; "EOFError"; "Ellipsis"; "EncodingWarning";
   "EnvironmentError"; "Exception"; "ExceptionGroup"; "FileExistsError";
   "FileNotFoundError"; "FloatingPointError"; "FutureWarning"; "GeneratorExit";
   "IOError"; "ImportError"; "ImportWarning"; "IndentationError"; "IndexError";
   "InterruptedError"; "IsADirectoryError"; "KeyError"; "KeyboardInterrupt";
   "LookupError"; "MemoryError"; "ModuleNotFoundError"; "NameError";
   "NotADirectoryError"; "NotImplemented"; "NotImplementedError"; "OSError";
   "OverflowError"; "PendingDeprecationWarning"; "PermissionError";
   "ProcessLookupError"; "PythonFinalizationError"; "RecursionError";
   "ReferenceError"; "ResourceWarning"; "RuntimeError"; "RuntimeWarning";
   "StandardError"; "StopAsyncIteration"; "StopIteration"; "SyntaxError";
   "SyntaxWarning"; "SystemError"; "SystemExit"; "TabError"; "TimeoutError";
   "TypeError"; "UnboundLocalError"; "UnicodeDecodeError"; "UnicodeEncodeError";
   "UnicodeError"; "UnicodeTranslateError"; "UnicodeWarning"; "UserWarning";
   "ValueError"; "Warning"; "WindowsError"; "ZeroDivisionError";
   "abs"; "aiter"; "all"; "anext"; "any"; "apply"; "ascii"; "basestring"; "bin";
   "bool"; "breakpoint"; "buffer"; "bytearray"; "bytes"; "callable"; "chr";
   "classmethod"; "cmp"; "coerce"; "compile"; "complex"; "copyright"; "credits";
   "delattr"; "dict"; "dir"; "divmod"; "enumerate"; "eval"; "execfile"; "exit";
   "file"; "filter"; "float"; "format"; "frozenset"; "getattr"; "globals";
   "hasattr"; "hash"; "help"; "hex"; "id"; "input"; "int"; "intern";
   "isinstance"; "issubclass"; "iter"; "len"; "license"; "list"; "locals";
   "long"; "map"; "max"; "memoryview"; "min"; "next"; "object"; "oct"; "open";
   "ord"; "pow"; "property"; "quit"; "range"; "raw_input"; "reduce"; "reload";
   "repr"; "reversed"; "round"; "set"; "setattr"; "slice"; "sorted";
   "staticmethod"; "str"; "sum"; "super"; "tuple"; "type"; "unichr"; "unicode";
   "vars"; "xrange"; "zip"].

Definition mem_str (x : string) (l : list string) : bool :=
  existsb (fun y => bool_decide (x = y)) l.

(** A name that may be bound to an object outside the value model: a
    module global, a builtin, or any name starting with an underscore. *)
Definition maybe_bound (t : string) : bool :=
  mem_str t module_globals || mem_str t builtin_names || mem_str t keywords ||
  match t with String "_" _ => true | _ => false end.

(** The local variables of the calling method: those holding a value of the
    model, and those holding another object ([None]). *)
Definition scope : Type := list (string * option pyvalue).

Fixpoint scope_lookup (sc : scope) (x : string) : option (option pyvalue) :=
  match sc with
  | [] => None
  | (y, v) :: sc' => if bool_decide (x = y) then Some v else scope_lookup sc' x
  end.

Definition eval_name (sc : scope) (t : string) : outcome :=
  if bool_decide (t = "True") then Returns (VBool true)
  else if bool_decide (t = "False") then Returns (VBool false)
  else if bool_decide (t = "None") then Returns VNone
  else match scope_lookup sc t with
       | Some (Some v) => Returns v
       | Some None => Outside
       | None => if maybe_bound t then Outside else Raises
       end.

(** An operand: a literal or a name. *)
Definition eval_atom (sc : scope) (t : string) : outcome :=
  match parse_int t with
  | Some z => Returns (VInt z)
  | None =>
      match parse_float t with
      | Some f => Returns (VFloat f)
      | None =>
          match parse_quoted t with
          | Some s => Returns (VStr s)
          | None => if is_identifier t then eval_name sc t else Outside
          end
      end
  end.

(** Unary minus and plus. *)
Definition negate (o : outcome) : outcome :=
  match o with
  | Returns (VInt z) => Returns (VInt (- z))
  | Returns (VBool b) => Returns (VInt (- (if b then 1 else 0)))
  | Returns (VFloat f) => Returns (VFloat (Float (- fmant f) (fexp f)))
  | Returns (VUnit _) => Outside
  | Returns _ => Raises
  | o => o
  end.

Definition unary_plus (o : outcome) : outcome :=
  match o with
  | Returns (VInt z) => Returns (VInt z)
  | Returns (VBool b) => Returns (VInt (if b then 1 else 0))
  | Returns (VFloat f) => Returns (VFloat f)
  | Returns (VUnit _) => Outside
  | Returns _ => Raises
  | o => o
  end.

Definition is_space_or_tab (c : ascii) : bool :=
  let n := N_of_ascii c in ((n =? 32) || (n =? 9))%N.

(** The words of a text: the maximal runs of characters other than space
    and tab. *)
Fixpoint words_acc (cur : string) (s : string) : list string :=
  match s with
  | EmptyString => if nonempty cur then [cur] else []
  | String c s' =>
      if is_space_or_tab c
      then (if nonempty cur then [cur] else []) ++ words_acc EmptyString s'
      else words_acc (cur +:+ String c EmptyString) s'
  end.

Definition words (s : string) : list string := words_acc EmptyString s.

(** A name or a number: a token that cannot follow another such token. *)
Definition is_operand_word (w : string) : bool :=
  (is_identifier w && negb (mem_str w keywords)) ||
  bool_decide (is_Some (parse_int w)) || bool_decide (is_Some (parse_float w)).

(** Two or more names or numbers in a row are a syntax error. *)
Definition juxtaposition (t : string) : bool :=
  let ws := words t in
  (2 <=? length ws)%nat && forallb is_operand_word ws.

(** [eval(text)] on the embedded fragment: the empty expression, a literal
    or a name with an optional sign, the sum of two integer literals, and
    names or numbers in a row. *)
Definition py_eval (sc : scope) (text : string) : outcome :=
  match strip is_blank text with
  | EmptyString => Raises
  | String c r as t =>
      if bool_decide (c = "-"%char) then negate (eval_atom sc (lstrip is_blank r))
      else if bool_decide (c = "+"%char) then unary_plus (eval_atom sc (lstrip is_blank r))
      else
        match eval_atom sc t with
        | Outside =>
            match cut "+" t with
            | Some (a, b) =>
                match parse_int (strip is_blank a), parse_int (strip is_blank b) with
                | Some x, Some y => Returns (VInt (x + y))
                | _, _ => Outside
                end
            | None => if juxtaposition t then Raises else Outside
            end
        | o => o
        end
  end.

(** ** Files *)

(** A file of one of the two formats.  The archive holds the entries
    [data] and [metadata] (pairs of strings); the text file holds the bytes
    of its header lines followed by the rows [numpy.savetxt] wrote. *)
Inductive file : Type :=
  | NpzFile (data : ndarray) (metadata : list (string * string))
  | TextFile (header : string) (table : list (pyfloat * pyfloat)).

Inductive driver : Type := BasePyNNIO | PyNNNumpyIO | PyNNTextIO.

Record io : Type := IO { cls : driver; filename : string }.

(** The lines of a text read with universal newlines, without their
    terminators. *)
Fixpoint lines (s : string) : list string :=
  match s with
  | EmptyString => []
  | String c s' =>
      if bool_decide (c = "010"%char) then EmptyString :: lines s'
      else if bool_decide (c = "013"%char) then
        match s' with
        | String "010" s'' => EmptyString :: lines s''
        | _ => EmptyString :: lines s'
        end
      else match lines s' with
           | [] => [String c EmptyString]
           | l :: ls => String c l :: ls
           end
  end.

Definition starts_with_hash (line : string) : bool :=
  match line with String "#" _ => true | _ => false end.

(** The text of a line before its comment. *)
Definition before_comment (line : string) : string :=
  match cut "#" line with
  | Some (l, _) => l
  | None => line
  end.

(** [numpy.loadtxt]: comments and blank lines are skipped, and a table of
    at most one row is squeezed to one dimension.  A header line that is
    neither is outside the embedding. *)
Definition loadtxt (header : string) (table : list (pyfloat * pyfloat)) : result ndarray :=
  if forallb (fun l => negb (nonempty (strip is_py_space (before_comment l)))) (lines header)
  then match table with
       | [] => Ok (Arr1 [])
       | [(x, c)] => Ok (Arr1 [x; c])
       | _ => Ok (Arr2 table)
       end
  else Raise Unmodelled.

(** The value stored by [try: metadata[name] = eval(value)] and its
    handler [except Exception: metadata[name] = fallback]. *)
Definition decode (sc : scope) (value fallback : string) : result pyvalue :=
  match py_eval sc value with
  | Returns v => Ok v
  | Raises => Ok (VStr fallback)
  | Outside => Raise Unmodelled
  end.

(** [sorted(metadata.items())]: the keys of a dictionary are distinct, so
    the order of the pairs is the order of their keys. *)
Definition item_le (a b : string * pyvalue) : Prop := String.le a.1 b.1.

Global Instance item_le_dec : RelDecision item_le.
Proof. intros a b. unfold item_le. apply _. Defined.

Definition sorted_items (metadata : gmap string pyvalue) : list (string * pyvalue) :=
  merge_sort item_le (map_to_list metadata).

(** A write changes the file system; a call that raises leaves it as the
    effects before the exception made it. *)
Definition written (A : Type) : Type := result A * gmap string file.

Module NumpyIO.

Definition locals (name value : string) : scope :=
  [("self", None); ("contents", None); ("data", None); ("metadata", None);
   ("name", Some (VStr name)); ("value", Some (VStr value))].

(** The loop of PyNNNumpyIO._read_file_contents over the metadata entries. *)
Fixpoint read_metadata (entries : list (string * string))
    (metadata : gmap string pyvalue) : result (gmap string pyvalue) :=
  match entries with
  | [] => Ok metadata
  | (name, value) :: rest =>
      v ← decode (locals name value) value value;
      read_metadata rest (<[name := v]> metadata)
  end.

(** PyNNNumpyIO._read_file_contents *)
Definition _read_file_contents (fs : gmap string file) (filename : string)
  : result (ndarray * gmap string pyvalue) :=
  match fs !! filename with
  | None => Raise (FileNotFoundError filename)
  | Some (NpzFile data entries) =>
      metadata ← read_metadata entries ∅;
      Ok (data, metadata)
  | Some (TextFile _ _) => Raise Unmodelled
  end.

Fixpoint ends_with (suffix s : string) : bool :=
  bool_decide (s = suffix) ||
  match s with
  | String _ s' => ends_with suffix s'
  | EmptyString => false
  end.

(** Where [numpy.savez] writes: it appends [.npz] to a file name that
    does not end with it. *)
Definition savez_path (filename : string) : string :=
  if ends_with ".npz" filename then filename else filename +:+ ".npz".

(** PyNNNumpyIO._write_file_contents *)
Definition _write_file_contents (fs : gmap string file) (filename : string)
    (data : list (pyfloat * pyfloat)) (metadata : gmap string pyvalue)
  : written () :=
  if bool_decide (metadata = ∅)
  then (Raise (ValueError "max() arg is an empty sequence"), fs)
  else
    let metadata_array := map (fun kv => (kv.1, py_str kv.2)) (sorted_items metadata) in
    (Ok (), <[savez_path filename := NpzFile (Arr2 data) metadata_array]> fs).

End NumpyIO.

Module TextIO.

Definition locals (name value : string) : scope :=
  [("self", None); ("metadata", None); ("f", None); ("line", None);
   ("name", Some (VStr name)); ("value", Some (VStr value))].

(** The body of the loop of PyNNTextIO._read_metadata for [line[1:]]: the
    name and the value of the entry. *)
Definition read_entry (body : string) : result (string * pyvalue) :=
  match cut "=" (strip is_py_space body) with
  | None => Raise (ValueError "not enough values to unpack")
  | Some (name, value) =>
      match cut "=" value with
      | Some _ => Raise (ValueError "too many values to unpack")
      | None =>
          let name := strip is_py_space name in
          v ← decode (locals name value) value (strip is_py_space value);
          Ok (name, v)
      end
  end.

(** The loop of PyNNTextIO._read_metadata over the lines of the file. *)
Fixpoint read_lines (ls : list string) (metadata : gmap string pyvalue)
  : result (gmap string pyvalue) :=
  match ls with
  | [] => Ok metadata
  | line :: rest =>
      match line with
      | String "#" body =>
          '(name, v) ← read_entry body;
          read_lines rest (<[name := v]> metadata)
      | _ => Ok metadata
      end
  end.

(** PyNNTextIO._read_metadata: the rows of the table follow the header
    and do not start with [#]. *)
Definition _read_metadata (header : string) : result (gmap string pyvalue) :=
  read_lines (lines header) ∅.

(** PyNNTextIO._read_file_contents *)
Definition _read_file_contents (fs : gmap string file) (filename : string)
  : result (ndarray * gmap string pyvalue) :=
  match fs !! filename with
  | None => Raise (FileNotFoundError filename)
  | Some (TextFile header table) =>
      data ← loadtxt header table;
      metadata ← _read_metadata header;
      Ok (data, metadata)
  | Some (NpzFile _ _) => Raise Unmodelled
  end.

Definition header_line (item : string * pyvalue) : string :=
  "# " +:+ item.1 +:+ " = " +:+ py_str item.2 +:+ String "010" EmptyString.

Definition header_text (items : list (string * pyvalue)) : string :=
  fold_right String.append EmptyString (map header_line items).

(** PyNNTextIO._write_file_contents *)
Definition _write_file_contents (fs : gmap string file) (filename : string)
    (data : list (pyfloat * pyfloat)) (metadata : gmap string pyvalue)
  : written () :=
  (Ok (), <[filename := TextFile (header_text (sorted_items metadata)) data]> fs).

End TextIO.

(** Dispatch on the class of the object. *)
Definition _read_file_contents (self : io) (fs : gmap string file)
  : result (ndarray * gmap string pyvalue) :=
  match cls self with
  | BasePyNNIO => Raise NotImplementedError
  | PyNNNumpyIO => NumpyIO._read_file_contents fs (filename self)
  | PyNNTextIO => TextIO._read_file_contents fs (filename self)
  end.

Definition _write_file_contents (self : io) (fs : gmap string file)
    (data : list (pyfloat * pyfloat)) (metadata : gmap string pyvalue)
  : written () :=
  match cls self with
  | BasePyNNIO => (Raise NotImplementedError, fs)
  | PyNNNumpyIO => NumpyIO._write_file_contents fs (filename self) data metadata
  | PyNNTextIO => TextIO._write_file_contents fs (filename self) data metadata
  end.

(** ** BasePyNNIO.read_segment *)

(** [metadata.get(k, 'unknown')] for the four segment annotations. *)
Definition segment_annotations (metadata : gmap string pyvalue) : gmap string pyvalue :=
  list_to_map
    (map (fun k => (k, default (VStr "unknown") (metadata !! k)))
         ["label"; "variable"; "first_id"; "last_id"]).

(** The non-[None] results of a loop that appends them. *)
Definition appended {A} (l : list (option A)) : list A := omap id l.

Definition read_segment (self : io) (fs : gmap string file) (lazy : bool)
  : result Segment :=
  if lazy then Raise (AssertionError "Do not support lazy")
  else
    '(data, metadata) ← _read_file_contents self fs;
    let seg_annotations := segment_annotations metadata in
    variable ← getitem metadata "variable";
    if eq_str variable "spikes" then
      indices ← channel_range metadata;
      trains ← mapM (_extract_spikes data metadata) indices;
      dt ← getitem metadata "dt";
      Ok {| analogsignals := [];
            spiketrains := appended trains;
            annotations := annotate [("dt", dt)] seg_annotations |}
    else
      signal ← _extract_signals data metadata;
      Ok {| analogsignals := match signal with Some s => [s] | None => [] end;
            spiketrains := [];
            annotations := seg_annotations |}.

(** ** BasePyNNIO.read_analogsignal *)

Definition read_analogsignal (self : io) (fs : gmap string file) (lazy : bool)
  : result AnalogSignal :=
  if lazy then Raise (AssertionError "Do not support lazy")
  else
    '(data, metadata) ← _read_file_contents self fs;
    variable ← getitem metadata "variable";
    if eq_str variable "spikes" then
      Raise (TypeError "File contains spike data, not analog signals")
    else
      signal ← _extract_signals data metadata;
      match signal with
      | None => Raise (IndexError "File does not contain a signal")
      | Some signal => Ok signal
      end.

(** ** BasePyNNIO.read_spiketrain *)

Definition read_spiketrain (self : io) (fs : gmap string file) (lazy : bool)
    (channel_index : Z) : result SpikeTrain :=
  if lazy then Raise (AssertionError "Do not support lazy")
  else
    '(data, metadata) ← _read_file_contents self fs;
    variable ← getitem metadata "variable";
    if negb (eq_str variable "spikes") then
      Raise (TypeError "File contains analog signals, not spike data")
    else
      spiketrain ← _extract_spikes data metadata channel_index;
      match spiketrain with
      | None =>
          Raise (IndexError ("File does not contain any spikes with channel index "
                             +:+ int_str channel_index))
      | Some spiketrain => Ok spiketrain
      end.

(** ** BasePyNNIO.write_segment *)

(** An element of [source]: a row of the transposed analog signal, or a
    spike train. *)
Record channel : Type := Channel { ch_values : list pyfloat; ch_units : pyvalue }.

(** [q.dimensionality]: the unit of a quantity built with a unit object. *)
Definition dimensionality (units : pyvalue) : result pq_unit :=
  match units with
  | VUnit u => Ok u
  | _ => Raise Unmodelled
  end.

Definition rescale_magnitude (from to : pq_unit) (x : pyfloat) : pyfloat :=
  Float (fmant x) (fexp x + u_exp10 from - u_exp10 to).

(** [q.rescale(units)] on magnitudes: unchanged for the same units,
    scaled within one dimension, an error across dimensions. *)
Definition rescale (from to : pq_unit) (xs : list pyfloat) : result (list pyfloat) :=
  if decide (from = to) then Ok xs
  else if decide (u_dimension from = u_dimension to)
       then Ok (map (rescale_magnitude from to) xs)
       else Raise (ValueError "Unable to convert between units").

(** [numpy.empty((n, 2))]: the initial contents are arbitrary. *)
Definition numpy_empty (n : nat) : list (pyfloat * pyfloat) :=
  replicate n (Float 0 0, Float 0 0).

(** [data[start:stop, col] = vals]: the slice is clipped to the array, and
    the values must fill it (or be a single value, which is broadcast). *)
Definition assign_slice (col : nat) (start stop : nat) (vals : list pyfloat)
    (data : list (pyfloat * pyfloat)) : result (list (pyfloat * pyfloat)) :=
  let a := Nat.min start (length data) in
  let b := Nat.max a (Nat.min stop (length data)) in
  let set (row : pyfloat * pyfloat) (x : pyfloat) :=
    match col with O => (x, row.2) | _ => (row.1, x) end in
  let target := take (b - a) (drop a data) in
  if Nat.eqb (length vals) (b - a) then
    Ok (take a data ++ zip_with set target vals ++ drop b data)
  else match vals with
       | [x] => Ok (take a data ++ map (fun row => set row x) target ++ drop b data)
       | _ => Raise (ValueError "could not broadcast input array")
       end.

(** [numpy.array(signal.rescale(units))] *)
Definition rescale_channel (units : pq_unit) (signal : channel) : result (list pyfloat) :=
  from ← dimensionality (ch_units signal);
  rescale from units (ch_values signal).

(** The body of the packing loop for the [i]-th element of [source]. *)
Definition pack_step (units : pq_unit) (st : nat * list (pyfloat * pyfloat))
    (i : nat) (signal : channel) : result (nat * list (pyfloat * pyfloat)) :=
  let '(start, data) := st in
  let size := length (ch_values signal) in
  let stop := (start + size)%nat in
  rescaled ← rescale_channel units signal;
  data ← assign_slice 0 start stop rescaled data;
  data ← assign_slice 1 start stop (replicate size (float_of_Z (Z.of_nat i))) data;
  Ok (stop, data).

Fixpoint pack_loop (units : pq_unit) (st : nat * list (pyfloat * pyfloat))
    (i : nat) (source : list channel) : result (nat * list (pyfloat * pyfloat)) :=
  match source with
  | [] => Ok st
  | signal :: rest =>
      st ← pack_step units st i signal;
      pack_loop units st (S i) rest
  end.

(** The packing step: [data = numpy.empty((n, 2))] and the loop over
    [enumerate(source)]. *)
Definition pack (units : pq_unit) (n : nat) (source : list channel)
  : result (list (pyfloat * pyfloat)) :=
  st ← pack_loop units (O, numpy_empty n) O source;
  Ok st.2.

(** [q.rescale(pq.ms).magnitude] of a sampling period. *)
Definition period_in_ms (q : quantity) : result pyfloat :=
  if decide (q_units q = pq_ms) then Ok (magnitude q)
  else if decide (u_dimension (q_units q) = u_dimension pq_ms)
       then Ok (rescale_magnitude (q_units q) pq_ms (magnitude q))
       else Raise (ValueError "Unable to convert between units").

(** The part of [write_segment] between the choice of [source] and the
    call of the driver: the metadata and the packed array. *)
Definition build_output (seg_annotations : gmap string pyvalue)
    (sampling_period : quantity) (size : nat) (n : nat) (source : list channel)
  : result (list (pyfloat * pyfloat) * gmap string pyvalue) :=
  let metadata := <["size" := VInt (Z.of_nat size)]> seg_annotations in
  let metadata := <["first_index" := VInt 0]> metadata in
  let metadata := <["last_index" := VInt (Z.of_nat size - 1)]> metadata in
  let metadata :=
    match metadata !! "label" with
    | Some _ => metadata
    | None => <["label" := VStr "unknown"]> metadata
    end in
  metadata ←
    match metadata !! "dt" with
    | Some _ => Ok metadata
    | None => dt ← period_in_ms sampling_period; Ok (<["dt" := VFloat dt]> metadata)
    end;
  let metadata := <["n" := VInt (Z.of_nat n)]> metadata in
  s0 ← match source with
       | s0 :: _ => Ok s0
       | [] => Raise (IndexError "index 0 is out of bounds for axis 0 with size 0")
       end;
  dim0 ← dimensionality (ch_units s0);
  let '(units, metadata) :=
    match seg_annotations !! "variable" with
    | Some variable => (default dim0 (UNITS_MAP_lookup variable), metadata)
    | None => (dim0, <["variable" := VStr "unknown"]> metadata)
    end in
  let metadata := <["units" := VStr (u_symbol units)]> metadata in
  data ← pack units n source;
  Ok (data, metadata).

(** [source], [metadata['size']] and [n] of [write_segment]; [None] when
    the assertion on [source] fails. *)
Definition choose_source (segment : Segment)
  : option (quantity * nat * nat * list channel) :=
  match analogsignals segment with
  | s0 :: _ =>
      let source := transpose (as_signal s0) in
      Some (as_sampling_period s0,
            shape1 (as_signal s0),
            (shape0 source * shape1 source)%nat,
            map (fun row => Channel row (as_units s0)) (cells source))
  | [] =>
      match spiketrains segment with
      | [] => None
      | s0 :: _ =>
          let source := spiketrains segment in
          Some (st_sampling_period s0,
                length source,
                sum_list (map (fun s => length (st_times s)) source),
                map (fun s => Channel (st_times s) (st_units s)) source)
      end
  end.

Definition write_segment (self : io) (segment : Segment) (fs : gmap string file)
  : written () :=
  match choose_source segment with
  | None =>
      (Raise (AssertionError "Segment contains neither analog signals nor spike trains."),
       fs)
  | Some (sampling_period, size, n, source) =>
      match build_output (annotations segment) sampling_period size n source with
      | Raise e => (Raise e, fs)
      | Ok (data, metadata) => _write_file_contents self fs data metadata
      end
  end.

(** ** Example files *)

(** A spike file and a voltage file in the archive format. *)
Definition spike_file : file :=
  NpzFile (Arr2 [(Float 15 (-1), Float 0 0); (Float 4 0, Float 0 0); (Float 25 (-1), Float 1 0)])
          [("dt", "0.1"); ("first_index", "0"); ("label", "population0");
           ("last_index", "1"); ("variable", "spikes")].

Definition voltage_file : file :=
  NpzFile (Arr2 [(Float (-65) 0, Float 0 0); (Float (-64) 0, Float 0 0)])
          [("dt", "0.1"); ("first_index", "0"); ("label", "population0");
           ("last_index", "0"); ("variable", "v")].

Definition example_fs : gmap string file :=
  <["spikes.npz" := spike_file]> (<["v.npz" := voltage_file]> ∅).

(** An analog file whose only row belongs to channel 7, outside the
    channel range 0..0 of its metadata. *)
Definition stray_channel_file : file :=
  NpzFile (Arr2 [(Float (-65) 0, Float 7 0)])
          [("dt", "0.1"); ("first_index", "0"); ("label", "population0");
           ("last_index", "0"); ("variable", "v")].

Definition stray_fs : gmap string file := <["stray.npz" := stray_channel_file]> ∅.

(** The metadata of the ordering example: label [x], dt [0.1], variable [v]. *)
Definition ordering_example : gmap string pyvalue :=
  <["label" := VStr "x"]> (<["dt" := VFloat (Float 1 (-1))]> (<["variable" := VStr "v"]> ∅)).

(** The flat layout in the words of the specification: the values of the
    channels one after the other, each row carrying the position of its
    channel, counted from [i]. *)
Fixpoint flat_layout (i : nat) (channels : list (list pyfloat)) : list (pyfloat * pyfloat) :=
  match channels with
  | [] => []
  | vals :: rest =>
      map (fun x => (x, float_of_Z (Z.of_nat i))) vals ++ flat_layout (S i) rest
  end.

Definition pq_V : pq_unit := Unit "volt" "V" "potential" 0.

(** Two channels to pack: one in volts, one in millivolts. *)
Definition example_source : list channel :=
  [Channel [Float 1 0; Float 2 0] (VUnit pq_V); Channel [Float 3 0] (VUnit pq_mV)].

(** Every character of [s] satisfies [p]. *)
Definition all_chars (p : ascii -> bool) (s : string) : bool :=
  forallb p (list_ascii_of_string s).

Definition is_digit (c : ascii) : bool :=
  let n := N_of_ascii c in ((48 <=? n) && (n <=? 57))%N.


(** ** The narrow literal parser of the specification *)






(** ** What a value becomes when it is written and read back *)





(** [f] applied to every cell. *)
Definition map_cells (f : pyfloat -> pyfloat) (a : array2d) : array2d :=
  {| shape0 := shape0 a; shape1 := shape1 a; cells := map (map f) (cells a) |}.



(** ** The round trip of an analog signal, in terms of the segment *)


(** What rescaling from [u] to [units] does to a magnitude. *)
Definition conversion (u units : pq_unit) : pyfloat -> pyfloat :=
  if decide (u = units) then id else rescale_magnitude u units.




(** ** Example segments *)






(** The rows and the decoded metadata of [spike_file]. *)
Definition spike_rows : list (pyfloat * pyfloat) :=
  [(Float 15 (-1), Float 0 0); (Float 4 0, Float 0 0); (Float 25 (-1), Float 1 0)].

Definition spike_metadata : gmap string pyvalue :=
  <["dt" := VFloat (Float 1 (-1))]> (<["first_index" := VInt 0]>
    (<["label" := VStr "population0"]> (<["last_index" := VInt 1]>
      (<["variable" := VStr "spikes"]> ∅)))).

(** An archive whose metadata has no [variable] entry. *)
Definition anonymous_fs : gmap string file :=
  <["anonymous.npz" :=
      NpzFile (Arr2 [(Float (-65) 0, Float 0 0)])
              [("dt", "0.1"); ("first_index", "0"); ("label", "population0");
               ("last_index", "0")]]> ∅.

(** ** Values that come back as they were written *)





(** * Properties *)

(** ** Printing and decoding on examples *)

Example int_str_ex : map int_str [0; 7; 10; -1; 1234567890] = ["0"; "7"; "10"; "-1"; "1234567890"].
Proof. reflexivity. Qed.

Example float_repr_ex :
  map float_repr [Float 1 (-1); Float 0 5; Float 1000 0; Float 1 (-4); Float 1 (-5);
                  Float 15 (-8); Float 1 15; Float 1 16; Float (-25) (-1);
                  Float 12345678901234568 1]
  = ["0.1"; "0.0"; "1000.0"; "0.0001"; "1e-05"; "1.5e-07"; "1000000000000000.0";
     "1e+16"; "-2.5"; "1.2345678901234568e+17"].
Proof. vm_compute. reflexivity. Qed.

Example py_eval_ex :
  map (py_eval [("name", Some (VStr "label")); ("self", None)])
      ["12"; "-3"; " 0.1"; "1e-05"; "'a b'"; "True"; "mV"; ""; "1+1"; "name"; "self";
       "len"; "007"; "a b"; "1000.0"; "Population 1"; "not x"; "a
b"]
  = [Returns (VInt 12); Returns (VInt (-3)); Returns (VFloat (Float 1 (-1)));
     Returns (VFloat (Float 1 (-5))); Returns (VStr "a b"); Returns (VBool true);
     Raises; Raises; Returns (VInt 2); Returns (VStr "label"); Outside;
     Outside; Outside; Raises; Returns (VFloat (Float 1 3)); Raises; Outside;
     Outside].
Proof. vm_compute. reflexivity. Qed.



(** ** Unit resolution *)

Lemma UNITS_MAP_lookup_other (v : pyvalue) :
  v ≠ VStr "spikes" → v ≠ VStr "v" → v ≠ VStr "gsyn" → UNITS_MAP_lookup v = None.
Proof.
  intros H1 H2 H3. destruct v as [| | | |s|]; try reflexivity. simpl. unfold UNITS_MAP.
  rewrite !lookup_insert_ne by congruence. apply lookup_empty.
Qed.

(** C2. Unit resolution follows this order: an explicit [units] entry is
    returned whatever [variable] says; otherwise [variable] equal to
    [spikes], [v] or [gsyn] gives milliseconds, millivolts or
    micro-siemens; otherwise the call fails with the unit resolution
    error. *)
Theorem determine_units_order (metadata : gmap string pyvalue) :
  (∀ u, metadata !! "units" = Some u → _determine_units metadata = Ok u) ∧
  (metadata !! "units" = None →
     (metadata !! "variable" = Some (VStr "spikes") →
        _determine_units metadata = Ok (VUnit pq_ms)) ∧
     (metadata !! "variable" = Some (VStr "v") →
        _determine_units metadata = Ok (VUnit pq_mV)) ∧
     (metadata !! "variable" = Some (VStr "gsyn") →
        _determine_units metadata = Ok (VUnit pq_uS)) ∧
     (metadata !! "variable" ≠ Some (VStr "spikes") →
      metadata !! "variable" ≠ Some (VStr "v") →
      metadata !! "variable" ≠ Some (VStr "gsyn") →
        _determine_units metadata = Raise UnitResolutionError)).
Proof.
  unfold _determine_units. split.
  - intros u ->. reflexivity.
  - intros ->. repeat split.
    + intros ->. reflexivity.
    + intros ->. reflexivity.
    + intros ->. reflexivity.
    + intros H1 H2 H3. destruct (metadata !! "variable") as [v|]; [|reflexivity].
      rewrite UNITS_MAP_lookup_other by congruence. reflexivity.
Qed.

(** The explicit unit wins over a recognised variable that maps to
    another unit; without it the variable decides. *)
Lemma determine_units_order_witness :
  _determine_units (<["units" := VStr "nA"]> (<["variable" := VStr "v"]> ∅))
    = Ok (VStr "nA") ∧
  _determine_units (<["variable" := VStr "gsyn"]> ∅) = Ok (VUnit pq_uS) ∧
  _determine_units (<["variable" := VStr "current"]> ∅) = Raise UnitResolutionError.
Proof.
  split; [|split].
  - apply (proj1 (determine_units_order _)). reflexivity.
  - apply (proj2 (determine_units_order _)); reflexivity.
  - apply (proj2 (determine_units_order _)); [reflexivity|..];
      rewrite lookup_insert_eq; congruence.
Defined.

(** ** Format mismatch *)

(** C5. On a file whose metadata has [variable == "spikes"],
    [read_analogsignal] fails with the format mismatch error; on a file
    whose [variable] is anything else, [read_spiketrain] fails with the
    format mismatch error. *)
Theorem read_wrong_kind (self : io) (fs : gmap string file) (data : ndarray)
    (metadata : gmap string pyvalue) :
  _read_file_contents self fs = Ok (data, metadata) →
  (metadata !! "variable" = Some (VStr "spikes") →
     read_analogsignal self fs false = Raise FormatMismatchError_analog) ∧
  (∀ variable channel_index,
     metadata !! "variable" = Some variable → variable ≠ VStr "spikes" →
     read_spiketrain self fs false channel_index = Raise FormatMismatchError_spikes).
Proof.
  intros Hread. split.
  - intros Hvar. unfold read_analogsignal. rewrite Hread. simpl.
    unfold getitem. rewrite Hvar. reflexivity.
  - intros variable channel_index Hvar Hne. unfold read_spiketrain. rewrite Hread. simpl.
    unfold getitem. rewrite Hvar. simpl.
    destruct variable as [| | | |s|]; try reflexivity. simpl.
    rewrite bool_decide_eq_false_2; [reflexivity | congruence].
Qed.

Lemma read_wrong_kind_witness :
  read_analogsignal (IO PyNNNumpyIO "spikes.npz") example_fs false
    = Raise FormatMismatchError_analog ∧
  read_spiketrain (IO PyNNNumpyIO "v.npz") example_fs false 0
    = Raise FormatMismatchError_spikes.
Proof.
  split.
  - eapply (proj1 (read_wrong_kind (IO PyNNNumpyIO "spikes.npz") example_fs _ _ eq_refl)).
    vm_compute. reflexivity.
  - eapply (proj2 (read_wrong_kind (IO PyNNNumpyIO "v.npz") example_fs _ _ eq_refl)
              (VStr "v")).
    + vm_compute. reflexivity.
    + discriminate.
Defined.

(** ** Missing channel *)




(** ** Empty segment *)

(** C8. For a segment without analog signals and without spike trains
    [write_segment] fails with the empty segment error and leaves the file
    system as it was: no file is created. *)
Theorem write_empty_segment (self : io) (segment : Segment) (fs : gmap string file) :
  analogsignals segment = [] → spiketrains segment = [] →
  write_segment self segment fs = (Raise EmptySegmentError, fs).
Proof.
  intros Ha Hs. unfold write_segment, choose_source. rewrite Ha, Hs. reflexivity.
Qed.

Lemma write_empty_segment_witness :
  write_segment (IO PyNNTextIO "out.v")
    {| analogsignals := []; spiketrains := []; annotations := ∅ |} ∅
  = (Raise EmptySegmentError, ∅).
Proof. apply write_empty_segment; reflexivity. Defined.

(** ** The order of floats *)

Lemma pow10_pos (k : Z) : 0 ≤ k → 0 < 10 ^ k.
Proof. intros. apply Z.pow_pos_nonneg; lia. Qed.

(** Comparison may be done at any exponent below both. *)
Lemma float_compare_at (a b : pyfloat) (e : Z) :
  e ≤ fexp a → e ≤ fexp b →
  float_compare a b = (fmant a * 10 ^ (fexp a - e) ?= fmant b * 10 ^ (fexp b - e)).
Proof.
  intros Ha Hb. unfold float_compare.
  set (e0 := Z.min (fexp a) (fexp b)).
  assert (He0 : e ≤ e0) by (unfold e0; lia).
  assert (He0a : e0 ≤ fexp a) by (unfold e0; lia).
  assert (He0b : e0 ≤ fexp b) by (unfold e0; lia).
  replace (fexp a - e) with ((fexp a - e0) + (e0 - e)) by lia.
  replace (fexp b - e) with ((fexp b - e0) + (e0 - e)) by lia.
  rewrite !Z.pow_add_r by lia. rewrite !Z.mul_assoc.
  pose proof (pow10_pos (e0 - e) ltac:(lia)) as Hp.
  apply Zmult_compare_compat_r. lia.
Qed.







(** ** The stop time of a spike train *)



(** ** Extraction that yields no signal *)

Lemma vstack_shape0 (arrays : list (list pyfloat)) (arr : array2d) :
  vstack arrays = Ok arr → (0 < shape0 arr)%nat.
Proof.
  unfold vstack. destruct arrays as [|a0 rest]; [discriminate|].
  destruct (forallb _ rest); [|discriminate]. intros [= <-]. simpl. lia.
Qed.

(** [_extract_signals] never returns [None]: the test in
    [read_analogsignal] cannot succeed. *)
Lemma extract_signals_not_none (data : ndarray) (metadata : gmap string pyvalue) :
  _extract_signals data metadata ≠ Ok None.
Proof.
  unfold _extract_signals.
  destruct (channel_range metadata) as [indices|]; simpl; [|discriminate].
  destruct (mapM (_extract_array data) indices) as [arrays|]; simpl; [|discriminate].
  destruct (vstack arrays) as [arr|] eqn:Hv; simpl; [|discriminate].
  apply vstack_shape0 in Hv. apply Nat.ltb_lt in Hv. rewrite Hv.
  destruct (_determine_units metadata); simpl; [|discriminate].
  destruct (getitem metadata "dt") as [dt|]; simpl; [|discriminate].
  destruct (times_ms dt); simpl; [|discriminate].
  destruct (getitem metadata "label"); simpl; [|discriminate].
  destruct (getitem metadata "variable"); simpl; discriminate.
Qed.

(** C6, on the file [stray.npz]: no row belongs to the channel range, and
    [read_analogsignal] returns a signal without samples instead of
    failing with the not-found error. *)
Lemma read_analogsignal_no_rows :
  read_analogsignal (IO PyNNNumpyIO "stray.npz") stray_fs false
  = Ok {| as_signal := Array2d 0 1 [];
          as_units := VUnit pq_mV;
          as_sampling_period := Quantity (Float 1 (-1)) pq_ms;
          as_annotations :=
            <["label" := VStr "population0"]> (<["variable" := VStr "v"]> ∅) |}.
Proof. vm_compute. reflexivity. Qed.

(** ** The order of the metadata on disk *)

Global Instance item_le_total : Total item_le.
Proof. intros a b. unfold item_le. apply String.le_total. Qed.

Global Instance item_le_trans : Transitive item_le.
Proof. intros a b c. unfold item_le. apply transitivity. Qed.




(** The example of the specification: the keys come out as dt, label,
    variable in both formats. *)
Lemma written_metadata_sorted_example :
  (sorted_items ordering_example).*1 = ["dt"; "label"; "variable"] ∧
  NumpyIO._write_file_contents ∅ "out.npz" [] ordering_example
  = (Ok (), <["out.npz" := NpzFile (Arr2 []) [("dt", "0.1"); ("label", "x"); ("variable", "v")]]> ∅) ∧
  TextIO._write_file_contents ∅ "out.v" [] ordering_example
  = (Ok (), <["out.v" := TextFile
       ("# dt = 0.1" +:+ String "010" ("# label = x" +:+ String "010"
         ("# variable = v" +:+ String "010" EmptyString))) []]> ∅).
Proof. vm_compute. auto. Qed.

(** ** Packing *)

Lemma rescale_length (from to : pq_unit) (xs ys : list pyfloat) :
  rescale from to xs = Ok ys → length ys = length xs.
Proof.
  unfold rescale. repeat case_decide; intros [= <-]; [done|]. by rewrite length_map.
Qed.

Lemma rescale_channel_length (units : pq_unit) (signal : channel) (ys : list pyfloat) :
  rescale_channel units signal = Ok ys → length ys = length (ch_values signal).
Proof.
  unfold rescale_channel. destruct (dimensionality (ch_units signal)); simpl; [|done].
  apply rescale_length.
Qed.

(** A slice that lies inside the array and is filled exactly. *)
Lemma assign_slice_exact (col : nat) (vals : list pyfloat)
    (pre mid post : list (pyfloat * pyfloat)) :
  length mid = length vals →
  assign_slice col (length pre) (length pre + length vals) vals (pre ++ mid ++ post)
  = Ok (pre ++
        zip_with (fun row x => match col with O => (x, row.2) | _ => (row.1, x) end) mid vals
        ++ post).
Proof.
  intros Hlen. unfold assign_slice. cbv zeta. rewrite !length_app.
  replace (Nat.min (length pre) (length pre + (length mid + length post)))
    with (length pre) by lia.
  replace (Nat.max (length pre)
             (Nat.min (length pre + length vals) (length pre + (length mid + length post))))
    with (length pre + length vals)%nat by lia.
  replace (length pre + length vals - length pre)%nat with (length vals) by lia.
  rewrite Nat.eqb_refl.
  rewrite take_app_length, drop_app_length.
  rewrite <- Hlen at 1. rewrite take_app_length.
  do 3 f_equal. rewrite (app_assoc pre mid post).
  apply drop_app_length'. rewrite length_app. lia.
Qed.

Lemma zip_with_both_columns (mid : list (pyfloat * pyfloat)) (vals : list pyfloat)
    (c : pyfloat) :
  length mid = length vals →
  zip_with (fun (row : pyfloat * pyfloat) x => (row.1, x))
    (zip_with (fun (row : pyfloat * pyfloat) x => (x, row.2)) mid vals)
    (replicate (length vals) c)
  = map (fun x => (x, c)) vals.
Proof.
  revert vals. induction mid as [|r mid IH]; intros [|v vals] Hlen; simplify_eq/=; [done|].
  f_equal. by apply IH.
Qed.

(** One turn of the loop fills the next rows of the array. *)
Lemma pack_step_spec (units : pq_unit) (i : nat) (signal : channel)
    (vals : list pyfloat) (pre mid post : list (pyfloat * pyfloat)) :
  rescale_channel units signal = Ok vals →
  length mid = length vals →
  pack_step units (length pre, pre ++ mid ++ post) i signal
  = Ok ((length pre + length vals)%nat,
        pre ++ map (fun x => (x, float_of_Z (Z.of_nat i))) vals ++ post).
Proof.
  intros Hres Hlen. unfold pack_step. rewrite Hres. simpl.
  rewrite <- (rescale_channel_length _ _ _ Hres).
  rewrite assign_slice_exact by done. simpl.
  rewrite <- (length_replicate (length vals) (float_of_Z (Z.of_nat i))) at 1.
  rewrite assign_slice_exact.
  - simpl. by rewrite zip_with_both_columns.
  - rewrite length_zip_with, length_replicate. lia.
Qed.

Lemma pack_loop_cons (units : pq_unit) (st : nat * list (pyfloat * pyfloat)) (i : nat)
    (signal : channel) (rest : list channel) :
  pack_loop units st i (signal :: rest)
  = (st' ← pack_step units st i signal; pack_loop units st' (S i) rest).
Proof. reflexivity. Qed.

Lemma pack_loop_spec (units : pq_unit) (source : list channel)
    (rescaled : list (list pyfloat)) (i : nat) (pre filler : list (pyfloat * pyfloat)) :
  mapM (rescale_channel units) source = Ok rescaled →
  length filler = sum_list (map (fun s => length (ch_values s)) source) →
  pack_loop units (length pre, pre ++ filler) i source
  = Ok ((length pre + length filler)%nat, pre ++ flat_layout i rescaled).
Proof.
  revert rescaled i pre filler.
  induction source as [|signal source IH]; intros rescaled i pre filler Hres Hlen.
  - simpl in *. injection Hres as <-. destruct filler; [|done]. simpl.
    by rewrite Nat.add_0_r.
  - simpl in Hres. destruct (rescale_channel units signal) as [vals|] eqn:Hsig; [|done].
    simpl in Hres.
    destruct (mapM (rescale_channel units) source) as [rest|] eqn:Hrest; [|done].
    simpl in Hres. injection Hres as <-.
    pose proof (rescale_channel_length _ _ _ Hsig) as Hvals.
    simpl in Hlen.
    rewrite <- (take_drop (length vals) filler).
    assert (Hmid : length (take (length vals) filler) = length vals)
      by (rewrite length_take; lia).
    rewrite pack_loop_cons, (pack_step_spec units i signal vals) by done.
    cbn [mbind result_bind]. rewrite app_assoc.
    replace (length pre + length vals)%nat
      with (length (pre ++ map (fun x => (x, float_of_Z (Z.of_nat i))) vals))
      by (rewrite length_app, length_map; lia).
    rewrite (IH rest (S i)); [|done|rewrite length_drop; lia].
    rewrite !length_app, length_map, Hmid, length_drop, <- app_assoc.
    do 2 f_equal. lia.
Qed.

Lemma flat_layout_columns (i : nat) (channels : list (list pyfloat)) :
  (flat_layout i channels).*1 = concat channels ∧
  (flat_layout i channels).*2
  = concat (imap (fun j vals => replicate (length vals) (float_of_Z (Z.of_nat (i + j))))
                 channels) ∧
  length (flat_layout i channels) = sum_list (map length channels).
Proof.
  revert i. induction channels as [|vals rest IH]; intros i; [done|].
  destruct (IH (S i)) as (H1 & H2 & H3). simpl.
  rewrite !fmap_app, length_app, length_map, H1, H2, H3. repeat split.
  - f_equal. rewrite <- list_fmap_compose. by rewrite list_fmap_id.
  - rewrite Nat.add_0_r. f_equal.
    + rewrite <- list_fmap_compose. clear. induction vals; [done|]. simpl. by f_equal.
    + f_equal. apply imap_ext. intros j x _. simpl. do 3 f_equal. lia.
Qed.

(** C3. For an ordered sequence of channels that rescale to the common
    unit, the packing step yields an array whose column 0 is the
    concatenation of the rescaled values in channel order, whose column 1
    holds for each row the 0-based position of its channel in the
    sequence, and whose number of rows is the sum of the channel lengths. *)
Theorem pack_flat_layout (units : pq_unit) (source : list channel)
    (rescaled : list (list pyfloat)) :
  mapM (rescale_channel units) source = Ok rescaled →
  let n := sum_list (map (fun s => length (ch_values s)) source) in
  ∃ data,
    pack units n source = Ok data ∧
    data = flat_layout 0 rescaled ∧
    data.*1 = concat rescaled ∧
    data.*2 = concat (imap (fun i vals => replicate (length vals) (float_of_Z (Z.of_nat i)))
                           rescaled) ∧
    length data = n.
Proof.
  intros Hres n. exists (flat_layout 0 rescaled).
  destruct (flat_layout_columns 0 rescaled) as (H1 & H2 & H3).
  split; [|split; [done|split; [done|split; [done|]]]].
  - unfold pack. change (O, numpy_empty n) with (length (@nil (pyfloat * pyfloat)), [] ++ numpy_empty n).
    rewrite (pack_loop_spec units source rescaled); [done|done|].
    unfold numpy_empty. by rewrite length_replicate.
  - rewrite H3. unfold n. clear -Hres. revert rescaled Hres.
    induction source as [|signal source IH]; intros rescaled Hres.
    + simpl in Hres. by injection Hres as <-.
    + simpl in Hres. destruct (rescale_channel units signal) as [vals|] eqn:Hsig; [|done].
      simpl in Hres.
      destruct (mapM (rescale_channel units) source) as [rest|] eqn:Hrest; [|done].
      simpl in Hres. injection Hres as <-. simpl.
      rewrite (rescale_channel_length _ _ _ Hsig). f_equal. by apply IH.
Qed.

Lemma pack_flat_layout_witness :
  ∃ data,
    pack pq_mV 3 example_source = Ok data ∧
    data = flat_layout 0 [[Float 1 3; Float 2 3]; [Float 3 0]] ∧
    data.*1 = [Float 1 3; Float 2 3; Float 3 0] ∧
    data.*2 = [Float 0 0; Float 0 0; Float 1 0] ∧
    length data = 3%nat.
Proof.
  apply (pack_flat_layout pq_mV example_source [[Float 1 3; Float 2 3]; [Float 3 0]]).
  reflexivity.
Defined.

(** ** Strings *)

#[local] Arguments String.append !_ _ / : simpl nomatch.





Lemma all_chars_cons (p : ascii → bool) (c : ascii) (s : string) :
  all_chars p (String c s) = p c && all_chars p s.
Proof. reflexivity. Qed.



Lemma length_take_str (n : nat) (s : string) :
  (n ≤ String.length s)%nat → String.length (take_str n s) = n.
Proof.
  revert s. induction n as [|n IH]; intros [|c s]; simpl; try done; try lia.
  intros. rewrite IH; lia.
Qed.






(** *** Cutting at a character *)



(** *** Stripping *)

Lemma rstrip_keep (p : ascii → bool) (s : string) :
  all_chars (fun c => negb (p c)) s = true → rstrip p s = s.
Proof.
  induction s as [|x s IH]; simpl; [done|].
  rewrite all_chars_cons, andb_true_iff. intros [Hx Hs].
  rewrite IH by done. apply negb_true_iff in Hx. rewrite Hx. by destruct s.
Qed.

Lemma rstrip_app_keep (p : ascii → bool) (a b : string) :
  b ≠ EmptyString → all_chars (fun c => negb (p c)) b = true →
  rstrip p (a +:+ b) = a +:+ b.
Proof.
  intros Hb Hall. induction a as [|x a IH]; simpl.
  - by apply rstrip_keep.
  - rewrite IH. destruct (a +:+ b) eqn:Hab; [|done].
    destruct a; [|done]. simpl in Hab. by subst.
Qed.


(** ** Decimal digits *)



Lemma digit_of_char_is_digit (c : ascii) : is_digit c = true → is_Some (digit_of_char c).
Proof. unfold is_digit, digit_of_char. intros ->. eauto. Qed.




(** The accumulator only shifts the value of the digits. *)
Lemma digits_value_acc_shift (acc : N) (s : string) (v : N) :
  digits_value_acc 0 s = Some v →
  digits_value_acc acc s = Some (acc * 10 ^ N.of_nat (String.length s) + v)%N.
Proof.
  revert acc v. induction s as [|x s IH]; intros acc v; simpl.
  - intros [= <-]. f_equal. lia.
  - destruct (digit_of_char x) as [d|]; [|done]. intros Hv.
    replace (0 * 10 + d)%N with d in Hv by lia.
    destruct (digits_value_acc 0 s) as [w|] eqn:Hw.
    + rewrite (IH d w eq_refl) in Hv. injection Hv as <-.
      rewrite (IH (acc * 10 + d)%N w eq_refl). f_equal.
      rewrite Nat2N.inj_succ, N.pow_succ_r'. lia.
    + exfalso. clear -Hv Hw. revert Hv Hw. generalize d 0%N. clear.
      induction s as [|y s IH]; intros a b; simpl; [done|].
      destruct (digit_of_char y); [apply IH|done].
Qed.






(** ** Decoding the text of an int *)








(** ** Normal form of floats *)

Lemma normalize_aux_S (fuel : nat) (m e : Z) :
  normalize_aux (S fuel) m e
  = if m mod 10 =? 0 then normalize_aux fuel (m / 10) (e + 1) else Float m e.
Proof. reflexivity. Qed.

(** With enough fuel the trailing zeros of the mantissa are removed. *)
Lemma normalize_aux_spec (fuel : nat) (m e : Z) :
  m ≠ 0 → Z.abs m < 2 ^ Z.of_nat fuel →
  ∃ m' k, normalize_aux fuel m e = Float m' (e + k) ∧
          m' mod 10 ≠ 0 ∧ 0 ≤ k ∧ m = m' * 10 ^ k.
Proof.
  revert m e. induction fuel as [|fuel IH]; intros m e Hm Hlt.
  - simpl in Hlt. lia.
  - rewrite normalize_aux_S. destruct (Z.eqb_spec (m mod 10) 0) as [Hmod|Hmod].
    + assert (Hdiv : m = 10 * (m / 10)) by (apply Z.div_exact; lia).
      destruct (IH (m / 10) (e + 1)) as (m' & k & Heq & Hm' & Hk & Hpow).
      * lia.
      * rewrite Nat2Z.inj_succ, Z.pow_succ_r in Hlt by lia. lia.
      * exists m', (k + 1). rewrite Heq. repeat split; [f_equal; lia|done|lia|].
        rewrite Z.pow_add_r by lia. lia.
    + exists m, 0. repeat split; [f_equal; lia|done|lia|lia].
Qed.

Lemma normalize_spec (f : pyfloat) :
  (fmant f = 0 ∧ normalize f = Float 0 0) ∨
  (fmant f ≠ 0 ∧
   ∃ m' k, normalize f = Float m' (fexp f + k) ∧
           m' mod 10 ≠ 0 ∧ 0 ≤ k ∧ fmant f = m' * 10 ^ k).
Proof.
  unfold normalize. destruct (Z.eqb_spec (fmant f) 0) as [H0|H0]; [by left|right].
  split; [done|]. apply normalize_aux_spec; [done|].
  rewrite Nat2Z.inj_succ, Z2Nat.id by apply Z.log2_nonneg.
  apply Z.log2_spec. lia.
Qed.

Lemma normalize_aux_pow (k fuel : nat) (m e : Z) :
  m mod 10 ≠ 0 → (k < fuel)%nat →
  normalize_aux fuel (m * 10 ^ Z.of_nat k) e = Float m (e + Z.of_nat k).
Proof.
  intros Hm. revert fuel e. induction k as [|k IH]; intros [|fuel] e Hlt; try lia.
  - rewrite normalize_aux_S. simpl. rewrite Z.mul_1_r.
    destruct (Z.eqb_spec (m mod 10) 0); [done|]. f_equal. lia.
  - rewrite normalize_aux_S.
    rewrite Nat2Z.inj_succ, Z.pow_succ_r by lia.
    replace (m * (10 * 10 ^ Z.of_nat k)) with ((m * 10 ^ Z.of_nat k) * 10) by lia.
    rewrite Z.mod_mul by lia. simpl.
    rewrite Z.div_mul by lia. rewrite IH by lia. f_equal. lia.
Qed.

(** A mantissa without trailing zero, scaled by a power of ten. *)
Lemma normalize_pow (m e k : Z) :
  m mod 10 ≠ 0 → 0 ≤ k → normalize (Float (m * 10 ^ k) e) = Float m (e + k).
Proof.
  intros Hm Hk. unfold normalize. cbn [fmant fexp].
  assert (Hm0 : m ≠ 0) by (intros ->; done).
  assert (Hpos : 0 < 10 ^ k) by (apply Z.pow_pos_nonneg; lia).
  destruct (Z.eqb_spec (m * 10 ^ k) 0) as [H0|H0]; [nia|].
  assert (Hlog : k ≤ Z.log2 (Z.abs (m * 10 ^ k))).
  { rewrite <- (Z.log2_pow2 k) at 1 by lia. apply Z.log2_le_mono.
    rewrite Z.abs_mul, (Z.abs_eq (10 ^ k)) by lia.
    assert (2 ^ k ≤ 10 ^ k) by (apply Z.pow_le_mono_l; lia). nia. }
  destruct (Z_of_nat_complete k Hk) as [k' ->].
  apply normalize_aux_pow; [done|]. lia.
Qed.

Lemma normalize_normal (m e : Z) : m mod 10 ≠ 0 → normalize (Float m e) = Float m e.
Proof.
  intros Hm. rewrite <- (Z.mul_1_r m) at 1. change 1 with (10 ^ 0).
  rewrite normalize_pow by lia. f_equal. lia.
Qed.

Lemma normalize_idemp (f : pyfloat) : normalize (normalize f) = normalize f.
Proof.
  destruct (normalize_spec f) as [[_ ->]|(_ & m' & k & -> & Hm' & _)]; [done|].
  by apply normalize_normal.
Qed.

(** Normalising does not change the number. *)
Lemma normalize_eqb (f : pyfloat) : float_eqb (normalize f) f = true.
Proof.
  unfold float_eqb.
  destruct (normalize_spec f) as [[H0 ->]|(_ & m' & k & -> & Hm' & Hk & Hpow)].
  - rewrite (float_compare_at _ _ (Z.min 0 (fexp f))) by (simpl; lia).
    simpl. rewrite H0. simpl. done.
  - rewrite (float_compare_at _ _ (fexp f)) by (simpl; lia). simpl.
    rewrite Hpow. replace (fexp f + k - fexp f) with k by lia.
    rewrite Z.sub_diag, Z.mul_1_r. by rewrite Z.compare_refl.
Qed.

(** ** Decoding the text of a float *)

















(** ** Decoding by evaluation *)











(** The name of a local variable of the reader is not kept either: the
    text [name] decodes to the key of the entry. *)
Lemma decode_local_name :
  NumpyIO.read_metadata [("label", "name")] ∅ = Ok (<["label" := VStr "label"]> ∅).
Proof. vm_compute. reflexivity. Qed.

(** ** Metadata through the archive format *)







(** ** Metadata through the text format *)









(** ** Transposition *)






(** ** Unpacking the flat layout *)

Lemma float_eqb_of_Z (a b : Z) : float_eqb (float_of_Z a) (float_of_Z b) = (a =? b).
Proof.
  unfold float_eqb, float_compare, float_of_Z. simpl. rewrite !Z.mul_1_r.
  destruct (Z.eqb_spec a b) as [->|Hne]; [by rewrite Z.compare_refl|].
  destruct (a ?= b) eqn:H; [by apply Z.compare_eq in H|done|done].
Qed.

(** The rows of one channel: kept as a whole for its own index, dropped
    for any other. *)
Lemma extract_block (vals : list pyfloat) (i z : Z) :
  _extract_array (Arr2 (map (fun x => (x, float_of_Z i)) vals)) z
  = Ok (if i =? z then vals else []).
Proof.
  unfold _extract_array. f_equal.
  induction vals as [|x vals IH]; simpl; [by destruct (i =? z)|].
  rewrite float_eqb_of_Z. destruct (i =? z); simpl; by rewrite IH.
Qed.

Lemma extract_app (rows1 rows2 : list (pyfloat * pyfloat)) (z : Z) (v1 v2 : list pyfloat) :
  _extract_array (Arr2 rows1) z = Ok v1 →
  _extract_array (Arr2 rows2) z = Ok v2 →
  _extract_array (Arr2 (rows1 ++ rows2)) z = Ok (v1 ++ v2).
Proof.
  unfold _extract_array. intros [= <-] [= <-]. by rewrite List.filter_app, map_app.
Qed.




(** ** Entries that survive the text format *)








(** ** Numbers survive both formats *)







(** ** The written metadata *)




(** ** What [write_segment] builds for an analog signal *)





(** The packed array is the flat layout of the rescaled channels. *)
Lemma pack_ok (units : pq_unit) (source : list channel) (rescaled : list (list pyfloat))
    (n : nat) :
  mapM (rescale_channel units) source = Ok rescaled →
  n = sum_list (map (fun s => length (ch_values s)) source) →
  pack units n source = Ok (flat_layout 0 rescaled).
Proof.
  intros Hres ->. unfold pack.
  change (O, numpy_empty ?n) with (length (@nil (pyfloat * pyfloat)), [] ++ numpy_empty n).
  rewrite (pack_loop_spec units source rescaled); [done|done|].
  unfold numpy_empty. by rewrite length_replicate.
Qed.


(** ** Reading the written signal back *)



Lemma map_cells_cells (f : pyfloat → pyfloat) (a : array2d) :
  cells (map_cells f a) = map (map f) (cells a).
Proof. reflexivity. Qed.

(** ** The round trip of an analog signal *)






(** ** Rescaling keeps the quantity *)

Lemma conversion_same (u : pq_unit) (a : array2d) : map_cells (conversion u u) a = a.
Proof.
  unfold map_cells, conversion. rewrite decide_True by done. destruct a as [s0 s1 rows].
  simpl. f_equal. induction rows as [|r rows IH]; [done|]. simpl.
  by rewrite map_id, IH.
Qed.

(** Rescaling to another unit and back gives the magnitude back. *)
Lemma conversion_inverse (u units : pq_unit) (x : pyfloat) :
  conversion units u (conversion u units x) = x.
Proof.
  unfold conversion. destruct (decide (u = units)) as [->|Hne].
  - by rewrite decide_True.
  - rewrite decide_False by congruence. unfold rescale_magnitude. destruct x as [m e].
    simpl. f_equal. lia.
Qed.

(** A sampling period given in milliseconds is written as it is. *)
Lemma period_in_ms_same (x : pyfloat) : period_in_ms (Quantity x pq_ms) = Ok x.
Proof. reflexivity. Qed.

(** * Further properties of the readers and writers *)

(** ** The not-found error of [read_analogsignal] is never raised *)

(** [mapM] over [result]: the first failing element decides. *)
Lemma mapM_result_cons {A B} (f : A → result B) (x : A) (l : list A) :
  mapM f (x :: l) = (y ← f x; k ← mapM f l; Ok (y :: k)).
Proof. reflexivity. Qed.

Lemma mapM_result_ok {A B} (f : A → result B) (g : A → B) (l : list A) :
  (∀ x, x ∈ l → f x = Ok (g x)) → mapM f l = Ok (map g l).
Proof.
  induction l as [|x l IH]; intros Hf; [done|].
  rewrite mapM_result_cons, Hf by apply list_elem_of_here.
  cbn [mbind result_bind]. rewrite IH; [done|].
  intros y Hy. apply Hf. by apply list_elem_of_further.
Qed.

Lemma mapM_result_raise {A B} (f : A → result B) (l : list A) (e : exn) :
  mapM f l = Raise e → ∃ x, x ∈ l ∧ f x = Raise e.
Proof.
  induction l as [|x l IH]; [done|].
  rewrite mapM_result_cons. destruct (f x) as [y|e'] eqn:Hx; cbn [mbind result_bind].
  - destruct (mapM f l) as [k|e'']; cbn [mbind result_bind]; [done|].
    intros [= ->]. destruct IH as (x' & Hin & Hx'); [done|].
    exists x'. split; [by apply list_elem_of_further|done].
  - intros [= ->]. exists x. split; [apply list_elem_of_here|done].
Qed.

Lemma mapM_extract_array_raise (data : ndarray) (indices : list Z) (e : exn) :
  mapM (_extract_array data) indices = Raise e →
  e = IndexError "too many indices for array".
Proof.
  intros (i & _ & Hi)%mapM_result_raise. destruct data; simpl in Hi; congruence.
Qed.

Lemma extract_signals_raise (data : ndarray) (metadata : gmap string pyvalue) :
  _extract_signals data metadata ≠ Raise NotFoundError_signal.
Proof.
  unfold _extract_signals, channel_range, getitem, _determine_units.
  destruct (metadata !! "first_index") as [fi|]; [|done]. cbn [mbind result_bind].
  destruct (metadata !! "last_index") as [la|]; [|done]. cbn [mbind result_bind].
  destruct (add_one la) as [stop|e1] eqn:Hadd; cbn [mbind result_bind];
    [|destruct la; simplify_eq/=; done].
  destruct (as_index fi) as [a|e2] eqn:Hfi; cbn [mbind result_bind];
    [|destruct fi; simplify_eq/=; done].
  destruct (as_index stop) as [b|e3] eqn:Hstop; cbn [mbind result_bind];
    [|destruct stop; simplify_eq/=; done].
  destruct (mapM (_extract_array data) (seqZ a (b - a))) as [arrays|e4] eqn:Hmap;
    cbn [mbind result_bind].
  2: { apply mapM_extract_array_raise in Hmap as ->. done. }
  destruct (vstack arrays) as [arr|e5] eqn:Hv; cbn [mbind result_bind].
  2: { unfold vstack in Hv. destruct arrays; [by simplify_eq|].
       destruct (forallb _ _); by simplify_eq. }
  apply vstack_shape0 in Hv. apply Nat.ltb_lt in Hv. rewrite Hv.
  destruct (metadata !! "units") as [units|]; cbn [mbind result_bind].
  - destruct (metadata !! "dt") as [dt|]; [|done]. cbn [mbind result_bind].
    destruct (times_ms dt) eqn:Hdt; cbn [mbind result_bind];
      [|destruct dt; simplify_eq/=; done].
    destruct (metadata !! "label"); [|done]. cbn [mbind result_bind].
    destruct (metadata !! "variable"); done.
  - destruct (metadata !! "variable") as [variable|] eqn:Hvar; [|done].
    destruct (UNITS_MAP_lookup variable); [|done]. cbn [mbind result_bind].
    destruct (metadata !! "dt") as [dt|]; [|done]. cbn [mbind result_bind].
    destruct (times_ms dt) eqn:Hdt; cbn [mbind result_bind];
      [|destruct dt; simplify_eq/=; done].
    destruct (metadata !! "label"); [|done]. cbn [mbind result_bind]. done.
Qed.

Lemma NumpyIO_read_metadata_raise (entries : list (string * string))
    (metadata : gmap string pyvalue) (e : exn) :
  NumpyIO.read_metadata entries metadata = Raise e → e = Unmodelled.
Proof.
  revert metadata. induction entries as [|[name value] rest IH]; intros metadata; [done|].
  cbn [NumpyIO.read_metadata]. unfold decode.
  destruct (py_eval _ value); cbn [mbind result_bind]; [apply IH|apply IH|by intros [= <-]].
Qed.

Lemma TextIO_read_lines_raise (ls : list string) (metadata : gmap string pyvalue) (e : exn) :
  TextIO.read_lines ls metadata = Raise e →
  e = Unmodelled ∨ ∃ msg, e = ValueError msg.
Proof.
  revert metadata. induction ls as [|line rest IH]; intros metadata; [done|].
  cbn [TextIO.read_lines]. destruct line as [|c body]; [done|].
  destruct (bool_decide (c = "#"%char)) eqn:Hc.
  - apply bool_decide_eq_true in Hc as ->.
    unfold TextIO.read_entry, decode.
    destruct (cut "=" (strip is_py_space body)) as [[name value]|];
      [|intros [= <-]; eauto].
    destruct (cut "=" value); [intros [= <-]; eauto|].
    destruct (py_eval _ value); cbn [mbind result_bind];
      [apply IH|apply IH|intros [= <-]; eauto].
  - apply bool_decide_eq_false in Hc.
    destruct c as [[] [] [] [] [] [] [] []]; try done.
Qed.

Lemma read_file_contents_raise (self : io) (fs : gmap string file) :
  _read_file_contents self fs ≠ Raise NotFoundError_signal.
Proof.
  unfold _read_file_contents. destruct (cls self); [done| |].
  - unfold NumpyIO._read_file_contents. destruct (fs !! filename self) as [[data entries|]|];
      [|done|done].
    destruct (NumpyIO.read_metadata entries ∅) eqn:Hr; [done|].
    apply NumpyIO_read_metadata_raise in Hr as ->. done.
  - unfold TextIO._read_file_contents, TextIO._read_metadata.
    destruct (fs !! filename self) as [[|header table]|]; [done| |done].
    destruct (loadtxt header table) eqn:Hl; cbn [mbind result_bind].
    + destruct (TextIO.read_lines (lines header) ∅) eqn:Hr; [done|].
      apply TextIO_read_lines_raise in Hr as [->|[msg ->]]; done.
    + unfold loadtxt in Hl. destruct (forallb _ _); [|by simplify_eq].
      destruct table as [|[] [|]]; done.
Qed.

(** X1. Whatever the file and the driver, [read_analogsignal] does not
    fail with its own error [File does not contain a signal]:
    [_extract_signals] returns a signal or raises, so the test
    [signal is None] is never true. *)
Theorem read_analogsignal_never_not_found (self : io) (fs : gmap string file) (lazy : bool) :
  read_analogsignal self fs lazy ≠ Raise NotFoundError_signal.
Proof.
  unfold read_analogsignal. destruct lazy; [done|].
  pose proof (read_file_contents_raise self fs) as Hread.
  destruct (_read_file_contents self fs) as [[data metadata]|e]; cbn [mbind result_bind];
    [|congruence].
  unfold getitem. destruct (metadata !! "variable") as [variable|]; [|done].
  cbn [mbind result_bind]. destruct (eq_str variable "spikes"); [done|].
  pose proof (extract_signals_raise data metadata) as Hraise.
  pose proof (extract_signals_not_none data metadata) as Hnone.
  destruct (_extract_signals data metadata) as [[signal|]|e]; cbn [mbind result_bind];
    [done|done|congruence].
Qed.

(** ** What [read_segment] returns *)

Lemma mapM_result_inv {A B} (f : A → result B) (l : list A) (k : list B) :
  mapM f l = Ok k → Forall2 (fun x y => f x = Ok y) l k.
Proof.
  revert k. induction l as [|x l IH]; intros k.
  - intros [= <-]. constructor.
  - rewrite mapM_result_cons. destruct (f x) as [y|e] eqn:Hx; cbn [mbind result_bind]; [|done].
    destruct (mapM f l) as [k'|e]; cbn [mbind result_bind]; [|done].
    intros [= <-]. constructor; [done|by apply IH].
Qed.

Lemma getitem_Some (m : gmap string pyvalue) (k : string) (v : pyvalue) :
  m !! k = Some v → getitem m k = Ok v.
Proof. unfold getitem. by intros ->. Qed.

Lemma getitem_None (m : gmap string pyvalue) (k : string) :
  m !! k = None → getitem m k = Raise (KeyError k).
Proof. unfold getitem. by intros ->. Qed.

Lemma segment_annotations_lookup (metadata : gmap string pyvalue) (k : string) :
  segment_annotations metadata !! k
  = if bool_decide (k ∈ ["label"; "variable"; "first_id"; "last_id"])
    then Some (default (VStr "unknown") (metadata !! k)) else None.
Proof.
  unfold segment_annotations. cbn [map]. rewrite !list_to_map_cons, list_to_map_nil.
  case_bool_decide as Hk.
  - repeat (apply elem_of_cons in Hk as [->|Hk];
            [by rewrite ?lookup_insert_ne by done; rewrite lookup_insert_eq|]).
    by apply elem_of_nil in Hk.
  - rewrite !lookup_insert_ne; [apply lookup_empty|..];
      intros <-; apply Hk; repeat first [apply list_elem_of_here|apply list_elem_of_further].
Qed.

(** X2. The annotations of a segment read from a file: [label],
    [first_id] and [last_id] hold the metadata entry, or [unknown] when the
    file has none; [variable] always holds the entry of the file (the
    default is never used, since the entry is required); [dt] is present
    for spike data only; no other entry of the file becomes an
    annotation. *)
Theorem read_segment_annotations (self : io) (fs : gmap string file) (seg : Segment)
    (data : ndarray) (metadata : gmap string pyvalue) :
  _read_file_contents self fs = Ok (data, metadata) →
  read_segment self fs false = Ok seg →
  ∃ variable,
    metadata !! "variable" = Some variable ∧
    annotations seg !! "variable" = Some variable ∧
    (∀ k, k ∈ ["label"; "first_id"; "last_id"] →
       annotations seg !! k = Some (default (VStr "unknown") (metadata !! k))) ∧
    annotations seg !! "dt"
      = (if eq_str variable "spikes" then metadata !! "dt" else None) ∧
    (∀ k, k ∉ ["label"; "variable"; "first_id"; "last_id"; "dt"] →
       annotations seg !! k = None).
Proof.
  intros Hread. unfold read_segment. rewrite Hread. cbn [mbind result_bind].
  destruct (metadata !! "variable") as [variable|] eqn:Hvar;
    [rewrite (getitem_Some _ _ _ Hvar)|rewrite (getitem_None _ _ Hvar)];
    cbn [mbind result_bind]; [|done].
  intros Hseg. exists variable. split; [done|].
  assert (∀ k, k ∈ ["label"; "first_id"; "last_id"] →
            segment_annotations metadata !! k
            = Some (default (VStr "unknown") (metadata !! k))) as Hthree.
  { intros k Hk. rewrite segment_annotations_lookup, bool_decide_eq_true_2; [done|].
    repeat (apply elem_of_cons in Hk as [->|Hk];
            [repeat first [apply list_elem_of_here|apply list_elem_of_further]|]).
    by apply elem_of_nil in Hk. }
  assert (segment_annotations metadata !! "variable" = Some variable) as Hv.
  { rewrite segment_annotations_lookup, Hvar. done. }
  assert (∀ k, k ∉ ["label"; "variable"; "first_id"; "last_id"; "dt"] →
            segment_annotations metadata !! k = None) as Hnone.
  { intros k Hk. rewrite segment_annotations_lookup, bool_decide_eq_false_2; [done|].
    intros Hin. apply Hk.
    repeat (apply elem_of_cons in Hin as [->|Hin];
            [repeat first [apply list_elem_of_here|apply list_elem_of_further]|]).
    by apply elem_of_nil in Hin. }
  destruct (eq_str variable "spikes").
  - destruct (channel_range metadata) as [indices|]; cbn [mbind result_bind] in Hseg; [|done].
    destruct (mapM _ indices) as [trains|]; cbn [mbind result_bind] in Hseg; [|done].
    unfold getitem in Hseg. destruct (metadata !! "dt") as [dt|]; [|done].
    cbn [mbind result_bind] in Hseg. injection Hseg as <-.
    cbn [annotations annotate fold_left fst snd].
    split_and!.
    + by rewrite lookup_insert_ne.
    + intros k Hk. rewrite lookup_insert_ne; [by apply Hthree|].
      intros <-. repeat (apply elem_of_cons in Hk as [Hk|Hk]; [done|]).
      by apply elem_of_nil in Hk.
    + by rewrite lookup_insert_eq.
    + intros k Hk. rewrite lookup_insert_ne; [by apply Hnone|].
      intros <-. apply Hk. repeat first [apply list_elem_of_here|apply list_elem_of_further].
  - destruct (_extract_signals data metadata) as [signal|]; cbn [mbind result_bind] in Hseg;
      [|done].
    injection Hseg as <-. cbn [annotations].
    split_and!; [done|done| |done].
    rewrite segment_annotations_lookup. done.
Qed.

Lemma read_segment_annotations_witness :
  ∃ seg,
    read_segment (IO PyNNNumpyIO "spikes.npz") example_fs false = Ok seg ∧
    ∃ variable,
      spike_metadata !! "variable" = Some variable ∧
      annotations seg !! "variable" = Some variable ∧
      (∀ k, k ∈ ["label"; "first_id"; "last_id"] →
         annotations seg !! k = Some (default (VStr "unknown") (spike_metadata !! k))) ∧
      annotations seg !! "dt"
        = (if eq_str variable "spikes" then spike_metadata !! "dt" else None) ∧
      (∀ k, k ∉ ["label"; "variable"; "first_id"; "last_id"; "dt"] →
         annotations seg !! k = None).
Proof.
  eexists. split; [vm_compute; reflexivity|].
  eapply (read_segment_annotations (IO PyNNNumpyIO "spikes.npz") example_fs);
    vm_compute; reflexivity.
Defined.

(** X3. The entry [variable] is required by every reader: a file whose
    metadata has none makes all three fail with [KeyError], although
    [read_segment] has a default for the annotation of that name. *)
Theorem read_requires_variable (self : io) (fs : gmap string file) (data : ndarray)
    (metadata : gmap string pyvalue) (channel_index : Z) :
  _read_file_contents self fs = Ok (data, metadata) →
  metadata !! "variable" = None →
  read_segment self fs false = Raise (KeyError "variable") ∧
  read_analogsignal self fs false = Raise (KeyError "variable") ∧
  read_spiketrain self fs false channel_index = Raise (KeyError "variable").
Proof.
  intros Hread Hvar. unfold read_segment, read_analogsignal, read_spiketrain.
  rewrite Hread. cbn [mbind result_bind]. by rewrite (getitem_None _ _ Hvar).
Qed.

Lemma read_requires_variable_witness :
  read_segment (IO PyNNNumpyIO "anonymous.npz") anonymous_fs false
    = Raise (KeyError "variable") ∧
  read_analogsignal (IO PyNNNumpyIO "anonymous.npz") anonymous_fs false
    = Raise (KeyError "variable") ∧
  read_spiketrain (IO PyNNNumpyIO "anonymous.npz") anonymous_fs false 0
    = Raise (KeyError "variable").
Proof.
  eapply (read_requires_variable (IO PyNNNumpyIO "anonymous.npz") anonymous_fs);
    vm_compute; reflexivity.
Defined.

Lemma length_appended {A} (l : list (option A)) : (length (appended l) ≤ length l)%nat.
Proof.
  unfold appended. induction l as [|[x|] l IH]; simpl; [lia|..];
    change (list_omap (option A) A id l) with (omap id l); lia.
Qed.

Lemma extract_spikes_some (data : ndarray) (metadata : gmap string pyvalue) (i : Z)
    (st : SpikeTrain) :
  _extract_spikes data metadata i = Ok (Some st) →
  _extract_array data i = Ok (st_times st) ∧
  st_times st ≠ [] ∧
  st_units st = VUnit pq_ms ∧
  st_annotations st !! "channel_index" = Some (VInt i).
Proof.
  unfold _extract_spikes.
  destruct (_extract_array data i) as [[|t0 ts]|]; cbn [mbind result_bind]; [done| |done].
  destruct (getitem metadata "label") as [label|]; cbn [mbind result_bind]; [|done].
  destruct (getitem metadata "dt") as [dt|]; cbn [mbind result_bind]; [|done].
  intros [= <-]. cbn [st_times st_units st_annotations annotate fold_left fst snd].
  split_and!; [done|done|done|].
  rewrite lookup_insert_ne by done. by rewrite lookup_insert_eq.
Qed.

(** X4. A segment read from a file holds spike trains only or one analog
    signal only.  For spike data every train has at least one spike, is in
    milliseconds and carries the channel index it was extracted for, a
    channel of the range of the file; channels without spikes give no
    train, so there are at most as many trains as channels.  For any other
    data the segment holds exactly one analog signal. *)
Theorem read_segment_contents (self : io) (fs : gmap string file) (seg : Segment)
    (data : ndarray) (metadata : gmap string pyvalue) :
  _read_file_contents self fs = Ok (data, metadata) →
  read_segment self fs false = Ok seg →
  (metadata !! "variable" = Some (VStr "spikes") ∧
   analogsignals seg = [] ∧
   ∃ indices,
     channel_range metadata = Ok indices ∧
     (length (spiketrains seg) ≤ length indices)%nat ∧
     Forall (fun st =>
               st_times st ≠ [] ∧ st_units st = VUnit pq_ms ∧
               ∃ i, i ∈ indices ∧
                    st_annotations st !! "channel_index" = Some (VInt i) ∧
                    _extract_array data i = Ok (st_times st))
            (spiketrains seg)) ∨
  (metadata !! "variable" ≠ Some (VStr "spikes") ∧
   spiketrains seg = [] ∧
   ∃ signal, analogsignals seg = [signal] ∧
             _extract_signals data metadata = Ok (Some signal)).
Proof.
  intros Hread. unfold read_segment. rewrite Hread. cbn [mbind result_bind].
  destruct (metadata !! "variable") as [variable|] eqn:Hvar;
    [rewrite (getitem_Some _ _ _ Hvar)|rewrite (getitem_None _ _ Hvar)];
    cbn [mbind result_bind]; [|done].
  destruct (eq_str variable "spikes") eqn:Hspikes.
  - destruct variable as [| | | |s|]; try done. simpl in Hspikes.
    apply bool_decide_eq_true in Hspikes as ->.
    destruct (channel_range metadata) as [indices|]; cbn [mbind result_bind]; [|done].
    destruct (mapM _ indices) as [trains|] eqn:Htrains; cbn [mbind result_bind]; [|done].
    destruct (getitem metadata "dt") as [dt|]; cbn [mbind result_bind]; [|done].
    intros [= <-]. left. cbn [analogsignals spiketrains].
    apply mapM_result_inv in Htrains.
    split_and!; [done|done|]. exists indices. split_and!; [done| |].
    + rewrite (Forall2_length _ _ _ Htrains). apply length_appended.
    + apply Forall_forall. intros st Hst. unfold appended in Hst.
      apply list_elem_of_omap in Hst as (o & Ho & Hid). simpl in Hid. subst o.
      destruct (proj1 (list_elem_of_lookup _ _) Ho) as [j Hj].
      destruct (Forall2_lookup_r _ _ _ _ _ Htrains Hj) as (i & Hi & Hex).
      apply extract_spikes_some in Hex as (Harr & Hne & Hu & Hci).
      split_and!; [done|done|]. exists i. split_and!; [|done|done].
      by apply list_elem_of_lookup_2 in Hi.
  - pose proof (extract_signals_not_none data metadata) as Hnone.
    destruct (_extract_signals data metadata) as [[signal|]|]; cbn [mbind result_bind];
      [|done|done].
    intros [= <-]. right. cbn [analogsignals spiketrains].
    split_and!; [|done|by exists signal].
    intros [= ->]. done.
Qed.

Lemma read_segment_contents_witness :
  ∃ seg, read_segment (IO PyNNNumpyIO "spikes.npz") example_fs false = Ok seg ∧
  ((spike_metadata !! "variable" = Some (VStr "spikes") ∧
    analogsignals seg = [] ∧
    ∃ indices,
      channel_range spike_metadata = Ok indices ∧
      (length (spiketrains seg) ≤ length indices)%nat ∧
      Forall (fun st =>
                st_times st ≠ [] ∧ st_units st = VUnit pq_ms ∧
                ∃ i, i ∈ indices ∧
                     st_annotations st !! "channel_index" = Some (VInt i) ∧
                     _extract_array (Arr2 spike_rows) i = Ok (st_times st))
             (spiketrains seg)) ∨
   (spike_metadata !! "variable" ≠ Some (VStr "spikes") ∧
    spiketrains seg = [] ∧
    ∃ signal, analogsignals seg = [signal] ∧
              _extract_signals (Arr2 spike_rows) spike_metadata = Ok (Some signal))).
Proof.
  eexists. split; [vm_compute; reflexivity|].
  eapply (read_segment_contents (IO PyNNNumpyIO "spikes.npz") example_fs);
    vm_compute; reflexivity.
Defined.

(** ** Packing, then extracting a channel *)

Lemma extract_flat_layout_index (i : nat) (channels : list (list pyfloat)) (z : Z) :
  _extract_array (Arr2 (flat_layout i channels)) z
  = Ok (if Z.of_nat i <=? z then default [] (channels !! (Z.to_nat z - i)%nat) else []).
Proof.
  revert i. induction channels as [|vals rest IH]; intros i.
  - cbn [flat_layout]. rewrite lookup_nil. by destruct (_ <=? _).
  - cbn [flat_layout].
    erewrite extract_app; [|apply extract_block|apply IH]. f_equal.
    destruct (Z.eqb_spec (Z.of_nat i) z) as [<-|Hne].
    + rewrite (proj2 (Z.leb_le (Z.of_nat i) (Z.of_nat i))) by lia.
      rewrite (proj2 (Z.leb_gt (Z.of_nat (S i)) (Z.of_nat i))) by lia.
      rewrite app_nil_r. by replace (Z.to_nat (Z.of_nat i) - i)%nat with O by lia.
    + destruct (Z.leb_spec (Z.of_nat i) z) as [Hle|Hlt].
      * rewrite (proj2 (Z.leb_le (Z.of_nat (S i)) z)) by lia.
        replace (Z.to_nat z - i)%nat with (S (Z.to_nat z - S i)) by lia. done.
      * by rewrite (proj2 (Z.leb_gt (Z.of_nat (S i)) z)) by lia.
Qed.

(** X5. The packed array gives every channel back: the rows extracted for
    the position of a channel in [source] are the rescaled values of that
    channel, in their order, and a channel index that is no position of
    [source] extracts nothing. *)
Theorem pack_then_extract (units : pq_unit) (source : list channel)
    (rescaled : list (list pyfloat)) (n : nat) :
  mapM (rescale_channel units) source = Ok rescaled →
  n = sum_list (map (fun s => length (ch_values s)) source) →
  ∃ data,
    pack units n source = Ok data ∧
    (∀ (i : nat) vals, rescaled !! i = Some vals →
       _extract_array (Arr2 data) (Z.of_nat i) = Ok vals) ∧
    (∀ z, z < 0 ∨ Z.of_nat (length source) ≤ z → _extract_array (Arr2 data) z = Ok []).
Proof.
  intros Hres Hn. exists (flat_layout 0 rescaled).
  split; [by apply pack_ok|].
  assert (length rescaled = length source) as Hlen.
  { apply mapM_result_inv, Forall2_length in Hres. done. }
  split.
  - intros i vals Hi. rewrite extract_flat_layout_index.
    rewrite (proj2 (Z.leb_le _ _)) by lia.
    replace (Z.to_nat (Z.of_nat i) - 0)%nat with i by lia. by rewrite Hi.
  - intros z Hz. rewrite extract_flat_layout_index.
    destruct (Z.leb_spec (Z.of_nat 0) z) as [Hle|Hlt]; [|done].
    rewrite lookup_ge_None_2; [done|]. lia.
Qed.

Lemma pack_then_extract_witness :
  ∃ data,
    pack pq_mV 3 example_source = Ok data ∧
    (∀ (i : nat) vals, [[Float 1 3; Float 2 3]; [Float 3 0]] !! i = Some vals →
       _extract_array (Arr2 data) (Z.of_nat i) = Ok vals) ∧
    (∀ z, z < 0 ∨ Z.of_nat (length example_source) ≤ z →
       _extract_array (Arr2 data) z = Ok []).
Proof.
  apply (pack_then_extract pq_mV example_source [[Float 1 3; Float 2 3]; [Float 3 0]] 3);
    reflexivity.
Defined.

(** ** What a driver writes, it reads back *)



(** ** Words survive both formats *)














